(** * URL shortener backend (src/backend/server.js)

    A shallow embedding of the short-code engine of the Express/Mongoose
    server: the base-62 encoder, the counter and URL collections, and the
    three request handlers (create, info, redirect), followed by the
    properties of the specification that concern them.

    Conventions of the embedding.
    - A JavaScript string is a [string]: one [ascii] per code unit, for code
      units below 256.
    - A JavaScript Number holding an integer is a [Z].  The encoder is
      given twice: [encodeBase62_double] computes [Math.floor (num / 62)]
      as the engine does, on IEEE doubles; [encodeBase62] reads the same
      loop on exact integers.  The two agree below 2^53
      ([encode_double_exact]), the range of the safe integers, and the
      handlers are stated with the integer reading; likewise the counter's
      [$inc] is [v + 1] on integers, which is what a Number holds up to
      2^53.
    - A MongoDB collection is the list of its documents in insertion order;
      [findOne] returns the first match.
    - [await] is sequencing in the [Promise] monad below; every database
      call may be rejected because the backend is unavailable. *)

From Stdlib Require Import ZArith String Ascii List Bool Sorted Lia.
Import ListNotations.
Local Open Scope string_scope.
Local Open Scope list_scope.
Local Open Scope Z_scope.

(** ** JavaScript primitives used by the server *)

(** [s[i]] on a string: the one-character string at index [i]; out of range
    the value is [undefined], which prints as such when concatenated. *)
Definition str_index (s : string) (i : Z) : string :=
  match String.get (Z.to_nat i) s with
  | Some c => String c EmptyString
  | None => "undefined"
  end.

(** WhiteSpace and LineTerminator code units below 256: TAB, LF, VT, FF, CR,
    SP and NBSP. *)
Definition is_white_space (c : ascii) : bool :=
  let n := N_of_ascii c in
  (((9 <=? n) && (n <=? 13)) || (n =? 32) || (n =? 160))%N.

Fixpoint trimStart (s : string) : string :=
  match s with
  | EmptyString => EmptyString
  | String c s' => if is_white_space c then trimStart s' else s
  end.

Fixpoint trimEnd (s : string) : string :=
  match s with
  | EmptyString => EmptyString
  | String c s' =>
      match trimEnd s' with
      | EmptyString => if is_white_space c then EmptyString else String c EmptyString
      | t => String c t
      end
  end.

(** [String.prototype.trim]. *)
Definition trim (s : string) : string := trimStart (trimEnd s).

(** [s.startsWith(p)]. *)
Definition startsWith (s p : string) : bool := String.prefix p s.

(** The character class [[a-zA-Z0-9]]. *)
Definition is_alnum (c : ascii) : bool :=
  let n := N_of_ascii c in
  (((97 <=? n) && (n <=? 122)) || ((65 <=? n) && (n <=? 90))
   || ((48 <=? n) && (n <=? 57)))%N.

Fixpoint all_alnum (s : string) : bool :=
  match s with
  | EmptyString => true
  | String c s' => is_alnum c && all_alnum s'
  end.

(** [/^[a-zA-Z0-9]+$/.test(s)]: one or more characters, all of the class
    (without the [m] flag [$] matches at the end of the input only). *)
Definition test_alnum_plus (s : string) : bool :=
  match s with
  | EmptyString => false
  | String _ _ => all_alnum s
  end.

(** ** Code encoder *)

Definition BASE62_CHARS : string :=
  "0123456789abcdefghijklmnopqrstuvwxyzABCDEFGHIJKLMNOPQRSTUVWXYZ".

(** The [while (num > 0)] loop of [encodeBase62], read on integers: exact
    for [num] below 2^53, where the doubles of the engine make no rounding
    error (see [encode_loop_double] and [encode_double_exact]).  Each round
    divides [num] by 62, so the loop makes at most as many rounds as [num]
    has binary digits; [fuel] is that bound (see [encode_loop_fuel]). *)
Fixpoint encode_loop (fuel : nat) (num : Z) (result : string) : string :=
  if num >? 0 then
    match fuel with
    | O => result
    | S fuel' =>
        encode_loop fuel' (num / 62)
          (str_index BASE62_CHARS (num mod 62) ++ result)%string
    end
  else result.

Definition bit_length (num : Z) : nat := S (Z.to_nat (Z.log2 num)).

Definition encodeBase62 (num : Z) : string :=
  if num =? 0 then str_index BASE62_CHARS 0
  else encode_loop (bit_length num) num "".

(** *** The encoder on doubles

    For a non-negative integer Number [num], [num / 62] is the real
    quotient rounded to the nearest double (53 significant bits, ties to
    the even significand) and [Math.floor] takes the integer below it.
    With [e] the binary exponent of the quotient, doubles around it are
    the multiples of [2^(e-52)]. *)
Definition round_half_even (a b : Z) : Z :=
  let q := a / b in
  let r := a mod b in
  if 2 * r <? b then q
  else if b <? 2 * r then q + 1
  else if Z.even q then q else q + 1.

Definition floor_div62 (num : Z) : Z :=
  if num <? 62 then 0
  else
    let e := Z.log2 (num / 62) in
    if e <=? 52
    then round_half_even (num * 2 ^ (52 - e)) 62 / 2 ^ (52 - e)
    else round_half_even num (62 * 2 ^ (e - 52)) * 2 ^ (e - 52).

(** The loop of [encodeBase62] with that division; [num % 62] is exact on
    doubles.  [None] stands for a loop that has not ended within [fuel]
    rounds. *)
Fixpoint encode_loop_double (fuel : nat) (num : Z) (result : string) : option string :=
  if num >? 0 then
    match fuel with
    | O => None
    | S fuel' =>
        encode_loop_double fuel' (floor_div62 num)
          (str_index BASE62_CHARS (num mod 62) ++ result)%string
    end
  else Some result.

Definition encodeBase62_double (num : Z) : option string :=
  if num =? 0 then Some (str_index BASE62_CHARS 0)
  else encode_loop_double (bit_length num) num "".

(** Modelled from the spec: the decoder that section 4.1 calls the
    corresponding [decode]; the server has none.  It reads a string as a
    positional base-62 numeral, most significant digit first, over
    [BASE62_CHARS]; the empty string and strings with a character outside
    the alphabet have no value. *)
Fixpoint index_of (c : ascii) (s : string) : option Z :=
  match s with
  | EmptyString => None
  | String c' s' =>
      if Ascii.eqb c c' then Some 0
      else match index_of c s' with
           | Some i => Some (i + 1)
           | None => None
           end
  end.

Fixpoint decode_from (acc : Z) (s : string) : option Z :=
  match s with
  | EmptyString => Some acc
  | String c s' =>
      match index_of c BASE62_CHARS with
      | Some d => decode_from (acc * 62 + d) s'
      | None => None
      end
  end.

Definition decodeBase62 (s : string) : option Z :=
  match s with
  | EmptyString => None
  | String _ _ => decode_from 0 s
  end.

(** ** The database *)

(** A document of the [Url] collection ([urlSchema]).  [updatedAt], which
    [timestamps: true] adds, is never read by the server and is left out. *)
Record UrlDoc := mkUrlDoc {
  _id : nat;
  originalUrl : string;
  shortCode : string;
  clicks : Z;
  createdAt : Z
}.

(** The [Counter] collection holds at most one document named ['urlId']
    ([name] is unique); [counter] is its [value]. *)
Record Db := mkDb {
  urls : list UrlDoc;
  counter : option Z
}.

Definition empty_store : Db := {| urls := []; counter := None |}.

(** The counter's value after [$inc: { value: 1 }] with [upsert: true]: one
    more than before, and 1 when the document had to be inserted (an absent
    field counts from 0).  Read on integers: a Number holds [v + 1] exactly
    as long as [v] is below 2^53. *)
Definition next_value (d : Db) : Z :=
  match counter d with
  | Some v => v + 1
  | None => 1
  end.

Inductive UrlFilter :=
| ByOriginalUrl (url : string)
| ByShortCode (code : string).

Definition matches (f : UrlFilter) (d : UrlDoc) : bool :=
  match f with
  | ByOriginalUrl url => String.eqb (originalUrl d) url
  | ByShortCode code => String.eqb (shortCode d) code
  end.

(** Database operations a handler issues, in order. *)
Inductive DbOp :=
| UrlFindOne (f : UrlFilter)
| UrlInsert (url code : string)
| UrlIncClicks (id : nat)
| CounterFindOne
| CounterInsert (value : Z)
| CounterInc.

Inductive MongoError :=
| Unavailable
| DuplicateKey
| ValidationError.

(** What a request runs against: [avail k] tells whether the backend answers
    the [k]-th database call of the request, [now] is [Date.now()]. *)
Record Env := mkEnv {
  avail : nat -> bool;
  now : Z
}.

Record World := mkWorld {
  db : Db;
  issued : list DbOp
}.

Inductive Outcome (A : Type) :=
| Resolved (a : A)
| Rejected (e : MongoError).
Arguments Resolved {A} a.
Arguments Rejected {A} e.

Definition Promise (A : Type) : Type := Env -> World -> Outcome A * World.

Definition ret {A} (a : A) : Promise A := fun _ w => (Resolved a, w).

Definition bind {A B} (m : Promise A) (k : A -> Promise B) : Promise B :=
  fun env w =>
    match m env w with
    | (Resolved a, w') => k a env w'
    | (Rejected e, w') => (Rejected e, w')
    end.

Notation "x <- m ;; k" := (bind m (fun x => k))
  (at level 61, m at next level, right associativity).

(** [try { m } catch (error) { handler }] where the handler only builds a
    value. *)
Definition try_catch {A} (m : Promise A) (handler : MongoError -> A)
  : Env -> World -> A * World :=
  fun env w =>
    match m env w with
    | (Resolved a, w') => (a, w')
    | (Rejected e, w') => (handler e, w')
    end.

(** A computation that cannot be rejected, as a promise. *)
Definition settled {A} (f : Env -> World -> A * World) : Promise A :=
  fun env w => let (a, w') := f env w in (Resolved a, w').

(** A promise that is not awaited and whose rejection is consumed by a
    [.catch] that only logs: its effect on the database stays, its outcome
    reaches nobody. *)
Definition detached {A} (m : Promise A) : Promise unit :=
  fun env w => (Resolved tt, snd (m env w)).

(** One round trip to the database: the call is recorded, and is rejected
    when the backend does not answer it. *)
Definition db_call {A} (op : DbOp) (f : Db -> Outcome A * Db) : Promise A :=
  fun env w =>
    let log := issued w ++ [op] in
    if avail env (length (issued w)) then
      let (r, d) := f (db w) in (r, {| db := d; issued := log |})
    else (Rejected Unavailable, {| db := db w; issued := log |}).

(** ** Mongoose models *)

Definition fresh_id (l : list UrlDoc) : nat :=
  S (fold_right (fun d m => Nat.max (_id d) m) O l).

Fixpoint inc_clicks (id : nat) (l : list UrlDoc) : list UrlDoc :=
  match l with
  | [] => []
  | d :: rest =>
      if Nat.eqb (_id d) id then
        {| _id := _id d; originalUrl := originalUrl d; shortCode := shortCode d;
           clicks := clicks d + 1; createdAt := createdAt d |} :: rest
      else d :: inc_clicks id rest
  end.

Module Url.

(** [Url.findOne(filter)]. *)
Definition findOne (f : UrlFilter) : Promise (option UrlDoc) :=
  db_call (UrlFindOne f) (fun d => (Resolved (find (matches f) (urls d)), d)).

(** [new Url({ originalUrl, shortCode })]: both paths have [trim: true], a
    setter that runs when the document is built. *)
Definition new (url code : string) : string * string := (trim url, trim code).

(** [doc.save()]: the [required] validators reject an empty string before
    anything is sent; the unique index on [shortCode] rejects a second
    document with the same code; otherwise the document is appended with
    the defaults [clicks = 0] and [createdAt = Date.now()]. *)
Definition save (doc : string * string) : Promise UrlDoc :=
  fun env w =>
    let (url, code) := doc in
    if String.eqb url "" || String.eqb code "" then (Rejected ValidationError, w)
    else
      db_call (UrlInsert url code)
        (fun d =>
           if existsb (matches (ByShortCode code)) (urls d) then (Rejected DuplicateKey, d)
           else
             let saved := {| _id := fresh_id (urls d); originalUrl := url;
                             shortCode := code; clicks := 0; createdAt := now env |} in
             (Resolved saved, {| urls := urls d ++ [saved]; counter := counter d |}))
        env w.

(** [Url.findByIdAndUpdate(id, { $inc: { clicks: 1 } })]; a missing document
    is no error. *)
Definition findByIdAndUpdate_inc_clicks (id : nat) : Promise unit :=
  db_call (UrlIncClicks id)
    (fun d => (Resolved tt, {| urls := inc_clicks id (urls d); counter := counter d |})).

End Url.

Module Counter.

(** [Counter.findOne({ name: 'urlId' })]: the counter's value, if any. *)
Definition findOne : Promise (option Z) :=
  db_call CounterFindOne (fun d => (Resolved (counter d), d)).

(** [Counter.create({ name: 'urlId', value })]; [name] is unique. *)
Definition create (value : Z) : Promise unit :=
  db_call (CounterInsert value)
    (fun d =>
       match counter d with
       | Some _ => (Rejected DuplicateKey, d)
       | None => (Resolved tt, {| urls := urls d; counter := Some value |})
       end).

(** [Counter.findOneAndUpdate({ name: 'urlId' }, { $inc: { value: 1 } },
    { new: true, upsert: true })]: one atomic step that returns the
    document after the update, inserting the counter when it is missing
    (see [next_value]). *)
Definition findOneAndUpdate_inc : Promise Z :=
  db_call CounterInc
    (fun d =>
       let value := next_value d in
       (Resolved value, {| urls := urls d; counter := Some value |})).

End Counter.

(** ** Sequence allocator *)

Definition initializeCounter : Promise unit :=
  settled
    (try_catch
       (found <- Counter.findOne ;;
        match found with
        | None => Counter.create 100000
        | Some _ => ret tt
        end)
       (fun _ => tt)).

(** The [catch] of [getNextCounterValue] logs and rethrows. *)
Definition getNextCounterValue : Promise Z := Counter.findOneAndUpdate_inc.

(** ** Validation *)

Definition isValidShortCode (code : string) : bool :=
  test_alnum_plus code
  && (1 <=? Z.of_nat (String.length code))
  && (Z.of_nat (String.length code) <=? 10).

(** ** HTTP responses *)

(** The JSON bodies the handlers send, by shape: [{ error, success: false }],
    the same with [shortCode], the [success: true] answer of the create
    handler, and the [data] of the info handler. *)
Inductive Json :=
| JsonError (error : string)
| JsonNotFound (error code : string)
| JsonShort (shortUrl code url message : string)
| JsonInfo (url code : string) (nclicks created : Z).

Inductive Body :=
| SendJson (j : Json)
| Location (url : string).

Record Response := mkResponse {
  statusCode : Z;
  body : Body
}.

(** Express's [res], reduced to the status it carries until it is sent.
    [res.status(code)] sets it and [res.json(obj)] sends with it. *)
Definition res_status (code : Z) : Z := code.

Definition res_json (status : Z) (j : Json) : Response :=
  {| statusCode := status; body := SendJson j |}.

(** The value of [req.body.longUrl], as far as the handler tells values
    apart: a string, or anything else ([undefined], [null], a number, ...). *)
Inductive JsValue :=
| JsString (s : string)
| JsOther.

(** A stand-in for the platform's URL parser on the inputs of the examples
    below: the scheme as the URL Standard's scheme state reads it (an ASCII
    letter, then letters, digits, [+], [-] and [.], up to the first [:]),
    given back as [protocol] does for a scheme written in lower case.
    Hosts and paths are not examined. *)
Fixpoint scan_scheme (s : string) : option string :=
  match s with
  | EmptyString => None
  | String c s' =>
      if Ascii.eqb c ":" then Some ":"
      else if is_alnum c || Ascii.eqb c "+" || Ascii.eqb c "-" || Ascii.eqb c "."
      then option_map (String c) (scan_scheme s')
      else None
  end.

Definition scheme_protocol (s : string) : option string :=
  match s with
  | EmptyString => None
  | String c _ =>
      if is_alnum c && negb ((48 <=? N_of_ascii c) && (N_of_ascii c <=? 57))%N
      then scan_scheme s
      else None
  end.

(** A stand-in for [encodeUrl] on the inputs of the examples below: a
    blank becomes [%20] and every other character is kept, as [encodeUrl]
    does for a URL whose other characters are letters, digits and the
    punctuation [: / . - _ ~]. *)
Fixpoint encode_blanks (s : string) : string :=
  match s with
  | EmptyString => EmptyString
  | String c s' =>
      if Ascii.eqb c " " then ("%20" ++ encode_blanks s')%string
      else String c (encode_blanks s')
  end.

(** ** Request handlers *)

Section Server.

(** [process.env.BACKEND_URL], as the template literals print it. *)
Variable BACKEND_URL : string.

(** The platform's URL parser: [URL_protocol s] is [new URL(s).protocol],
    or [None] when the constructor throws. *)
Variable URL_protocol : string -> option string.

(** The [Location] header Express writes for the argument of [redirect]:
    [res.location(url)] sets it to [encodeUrl(url)], the URL with the
    characters that may not stand in a URL percent-encoded (a blank
    becomes [%20]).  Which characters these are depends on the version of
    the library, which the repository does not fix. *)
Variable encodeUrl : string -> string.

(** The parser rejects the empty string: [new URL('')] throws. *)
Hypothesis URL_empty : URL_protocol "" = None.

(** [res.redirect(url)], called with the URL alone: Express takes its
    default status, 302, assigns it to the response and sends the
    [Location] for [url].  A status set earlier by [res.status] is
    overwritten; the documented way to choose another one is
    [res.redirect(status, url)]. *)
Definition res_redirect (status : Z) (url : string) : Response :=
  {| statusCode := 302; body := Location (encodeUrl url) |}.

Definition isValidUrl (s : string) : bool :=
  match URL_protocol s with
  | Some protocol => String.eqb protocol "http:" || String.eqb protocol "https:"
  | None => false
  end.

Definition short_url (code : string) : string :=
  (BACKEND_URL ++ "/" ++ code)%string.

(** [app.post('/api/create/longurl', ...)]: the Shortening Service. *)
Definition post_create_longurl (longUrl : JsValue) : Env -> World -> Response * World :=
  try_catch
    (match longUrl with
     | JsOther =>
         ret (res_json (res_status 400)
                (JsonError "Long URL is required and must be a string"))
     | JsString "" =>
         ret (res_json (res_status 400)
                (JsonError "Long URL is required and must be a string"))
     | JsString s =>
         let trimmedUrl := trim s in
         if negb (isValidUrl trimmedUrl) then
           ret (res_json (res_status 400)
                  (JsonError "Invalid URL format. Please include http:// or https://"))
         else
           existingUrl <- Url.findOne (ByOriginalUrl trimmedUrl) ;;
           match existingUrl with
           | Some existing =>
               ret (res_json (res_status 200)
                      (JsonShort (short_url (shortCode existing)) (shortCode existing)
                         trimmedUrl "URL already exists"))
           | None =>
               counterId <- getNextCounterValue ;;
               let code := encodeBase62 counterId in
               _ <- Url.save (Url.new trimmedUrl code) ;;
               ret (res_json (res_status 201)
                      (JsonShort (short_url code) code trimmedUrl
                         "Short URL created successfully"))
           end
     end)
    (fun _ =>
       res_json (res_status 500) (JsonError "Internal server error. Please try again.")).

(** [app.get('/api/info/*', ...)]: [code] is [req.params[0]]. *)
Definition get_info (code : string) : Env -> World -> Response * World :=
  try_catch
    (if String.eqb code "" || negb (isValidShortCode code) then
       ret (res_json (res_status 400) (JsonError "Invalid short code format"))
     else
       urlDoc <- Url.findOne (ByShortCode code) ;;
       match urlDoc with
       | None => ret (res_json (res_status 404) (JsonError "Short URL not found"))
       | Some doc =>
           ret (res_json (res_status 200)
                  (JsonInfo (originalUrl doc) (shortCode doc) (clicks doc) (createdAt doc)))
       end)
    (fun _ => res_json (res_status 500) (JsonError "Internal server error")).

(** [app.get('/*', ...)]: the Resolution Service; [code] is [req.params[0]],
    the request path without its leading slash. *)
Definition get_redirect (code : string) : Env -> World -> Response * World :=
  try_catch
    (if String.eqb code "" || startsWith code "api/" || String.eqb code "favicon.ico" then
       ret (res_json (res_status 404) (JsonError "Page not found"))
     else if negb (isValidShortCode code) then
       ret (res_json (res_status 400) (JsonError "Invalid short code format"))
     else
       urlDoc <- Url.findOne (ByShortCode code) ;;
       match urlDoc with
       | None =>
           ret (res_json (res_status 404) (JsonNotFound "Short URL not found" code))
       | Some doc =>
           _ <- detached (Url.findByIdAndUpdate_inc_clicks (_id doc)) ;;
           ret (res_redirect (res_status 301) (originalUrl doc))
       end)
    (fun _ => res_json (res_status 500) (JsonError "Internal server error")).

(** ** The server as a transition system *)

Inductive Request :=
| Startup
| PostCreate (longUrl : JsValue)
| GetInfo (code : string)
| GetRedirect (code : string).

(** One request against the database [d]: the response (none for the
    startup hook), the database afterwards, and the calls issued. *)
Definition serve (req : Request) (env : Env) (d : Db)
  : option Response * Db * list DbOp :=
  let w := {| db := d; issued := [] |} in
  match req with
  | Startup =>
      let w' := snd (initializeCounter env w) in (None, db w', issued w')
  | PostCreate longUrl =>
      let (r, w') := post_create_longurl longUrl env w in (Some r, db w', issued w')
  | GetInfo code =>
      let (r, w') := get_info code env w in (Some r, db w', issued w')
  | GetRedirect code =>
      let (r, w') := get_redirect code env w in (Some r, db w', issued w')
  end.

Definition response_of (x : option Response * Db * list DbOp) : option Response :=
  fst (fst x).
Definition db_of (x : option Response * Db * list DbOp) : Db := snd (fst x).
Definition calls_of (x : option Response * Db * list DbOp) : list DbOp := snd x.

(** A history of requests, oldest first. *)
Fixpoint run (h : list (Request * Env)) (d : Db) : Db :=
  match h with
  | [] => d
  | (req, env) :: rest => run rest (db_of (serve req env d))
  end.

(** The values [getNextCounterValue] returns over a sequence of calls, each
    with its own availability of the backend; a rejected call returns
    nothing. *)
Fixpoint allocations (envs : list Env) (d : Db) : list Z :=
  match envs with
  | [] => []
  | env :: rest =>
      match getNextCounterValue env {| db := d; issued := [] |} with
      | (Resolved v, w) => v :: allocations rest (db w)
      | (Rejected _, w) => allocations rest (db w)
      end
  end.

(** What one request can do to the database. *)
Inductive change (req : Request) (d : Db) : Db -> Prop :=
| change_nothing : change req d d
| change_init :
    req = Startup -> counter d = None ->
    change req d {| urls := urls d; counter := Some 100000 |}
| change_allocate s :
    req = PostCreate (JsString s) ->
    change req d {| urls := urls d; counter := Some (next_value d) |}
| change_create s id created :
    req = PostCreate (JsString s) ->
    isValidUrl (trim s) = true ->
    trim s <> "" ->
    encodeBase62 (next_value d) <> "" ->
    existsb (matches (ByShortCode (encodeBase62 (next_value d)))) (urls d) = false ->
    change req d
      {| urls := urls d ++ [ {| _id := id; originalUrl := trim s;
                                shortCode := encodeBase62 (next_value d);
                                clicks := 0; createdAt := created |} ];
         counter := Some (next_value d) |}
| change_click code id :
    req = GetRedirect code ->
    change req d {| urls := inc_clicks id (urls d); counter := counter d |}.

(** Every stored code encodes a value the counter has already passed. *)
Definition allocated (d : Db) : Prop :=
  match counter d with
  | None => urls d = []
  | Some v =>
      1 <= v /\
      forall r, In r (urls d) -> exists n, 1 <= n <= v /\ shortCode r = encodeBase62 n
  end.

(** The paths the redirect handler sets aside before it looks at the code. *)
Definition reserved_path (code : string) : bool :=
  String.eqb code "" || startsWith code "api/" || String.eqb code "favicon.ico".

Definition is_allocation (op : DbOp) : bool :=
  match op with
  | CounterInc => true
  | _ => false
  end.

Definition is_insert (op : DbOp) : bool :=
  match op with
  | UrlInsert _ _ => true
  | _ => false
  end.

Definition count_ops (p : DbOp -> bool) (l : list DbOp) : nat :=
  length (filter p l).

(** A backend that answers every call, and one that answers the first call
    of a request only. *)
Definition up : Env := {| avail := fun _ => true; now := 1700000000000 |}.

Definition first_call_only : Env :=
  {| avail := fun k => Nat.eqb k 0; now := 1700000000000 |}.

(** A small deployment for the examples: the server boots on an empty
    store and two URLs are shortened, the first one submitted with blanks
    around it. *)
Definition example_backend : string := "http://localhost:5080".

Definition example_history : list (Request * Env) :=
  [ (Startup, up);
    (PostCreate (JsString "  https://example.com/a/b/c  "), up);
    (PostCreate (JsString "https://example.com/x"), up) ].

Definition example_doc1 : UrlDoc :=
  {| _id := 1; originalUrl := "https://example.com/a/b/c"; shortCode := "q0V";
     clicks := 0; createdAt := 1700000000000 |}.

Definition example_doc2 : UrlDoc :=
  {| _id := 2; originalUrl := "https://example.com/x"; shortCode := "q0W";
     clicks := 0; createdAt := 1700000000000 |}.

Definition example_store : Db :=
  {| urls := [example_doc1; example_doc2]; counter := Some 100002 |}.

(** A store whose counter was set back below a code already handed out. *)
Definition rewound_store : Db :=
  {| urls := [example_doc1]; counter := Some 100000 |}.

(** [b] is the record [a] after zero or more clicks: everything but the
    click count is the same, and the count has not gone down. *)
Definition same_record (a b : UrlDoc) : Prop :=
  _id a = _id b /\ originalUrl a = originalUrl b /\ shortCode a = shortCode b
  /\ createdAt a = createdAt b /\ clicks a <= clicks b.

Definition set_clicks (r : UrlDoc) (k : Z) : UrlDoc :=
  {| _id := _id r; originalUrl := originalUrl r; shortCode := shortCode r;
     clicks := k; createdAt := createdAt r |}.

Definition total_clicks (l : list UrlDoc) : Z :=
  fold_right (fun r acc => clicks r + acc) 0 l.

(** What the create handler keeps true of the [Url] collection: document
    ids and original URLs are pairwise different, and every stored URL is
    a trimmed string that passed [isValidUrl]. *)
Definition well_kept (d : Db) : Prop :=
  NoDup (map _id (urls d))
  /\ NoDup (map originalUrl (urls d))
  /\ forall r, In r (urls d) ->
       isValidUrl (originalUrl r) = true /\ trim (originalUrl r) = originalUrl r.


(** The counter was initialised at start-up: it is at least the starting
    value plus the number of records, and every stored code encodes a
    value above the starting value that the counter has passed. *)
Definition offset_kept (d : Db) : Prop :=
  exists v,
    counter d = Some v
    /\ 100000 + Z.of_nat (length (urls d)) <= v
    /\ forall r, In r (urls d) ->
         exists n, 100000 < n <= v /\ shortCode r = encodeBase62 n.


(** A backend that answers nothing, and one that answers the first two
    calls of a request but not the third. *)
Definition down : Env := {| avail := fun _ => false; now := 1700000000000 |}.

Definition insert_rejected : Env :=
  {| avail := fun k => Nat.ltb k 2; now := 1700000000000 |}.


(** ** Tactics for running a handler *)

Ltac unfold_handlers :=
  unfold serve, db_of, response_of, calls_of, post_create_longurl, get_info, get_redirect,
    initializeCounter, getNextCounterValue, settled, try_catch, detached, bind, ret,
    Url.findOne, Url.save, Url.new, Url.findByIdAndUpdate_inc_clicks,
    Counter.findOne, Counter.create, Counter.findOneAndUpdate_inc, db_call.

Ltac reduce := cbn [fst snd db issued urls counter app length].

(** Case analysis on every test a handler makes, outermost first. *)
Ltac split_cases :=
  repeat (reduce;
          match goal with
          | |- context [match ?x with _ => _ end] =>
              lazymatch x with
              | context [match _ with _ => _ end] => fail
              | _ => destruct x eqn:?
              end
          end);
  reduce.

(** ** The encoder *)

Lemma append_empty_r (s : string) : (s ++ "")%string = s.
Proof. induction s; simpl; congruence. Qed.

Lemma append_assoc (a b c : string) :
  ((a ++ b) ++ c)%string = (a ++ (b ++ c))%string.
Proof. induction a; simpl; congruence. Qed.

Lemma digit_spec (d : Z) :
  0 <= d < 62 ->
  exists c, str_index BASE62_CHARS d = String c ""
            /\ index_of c BASE62_CHARS = Some d /\ is_alnum c = true.
Proof.
  intros Hd.
  pose (ok := fun n : nat =>
    match String.get n BASE62_CHARS with
    | Some c => match index_of c BASE62_CHARS with
                | Some i => (i =? Z.of_nat n) && is_alnum c
                | None => false
                end
    | None => false
    end).
  assert (Hall : forallb ok (seq 0 62) = true) by (vm_compute; reflexivity).
  rewrite forallb_forall in Hall.
  specialize (Hall (Z.to_nat d)).
  assert (Hin : In (Z.to_nat d) (seq 0 62)) by (apply in_seq; lia).
  specialize (Hall Hin). unfold ok in Hall. unfold str_index.
  destruct (String.get (Z.to_nat d) BASE62_CHARS) as [c|]; [|discriminate].
  destruct (index_of c BASE62_CHARS) as [i|] eqn:Ei; [|discriminate].
  apply andb_true_iff in Hall. destruct Hall as [Hi Hc].
  apply Z.eqb_eq in Hi. exists c.
  split; [reflexivity | split; [rewrite Ei; f_equal; lia | exact Hc]].
Qed.

Lemma encode_loop_app (fuel : nat) : forall num result,
  encode_loop fuel num result = (encode_loop fuel num "" ++ result)%string.
Proof.
  induction fuel as [|f IH]; intros num result; simpl.
  - destruct (num >? 0); reflexivity.
  - destruct (num >? 0); [|reflexivity].
    rewrite IH. rewrite (IH _ (_ ++ "")%string).
    rewrite append_empty_r, append_assoc. reflexivity.
Qed.

Lemma decode_from_app (s1 : string) : forall acc s2,
  decode_from acc (s1 ++ s2) =
  match decode_from acc s1 with
  | Some a => decode_from a s2
  | None => None
  end.
Proof.
  induction s1 as [|c s1 IH]; intros acc s2; cbn [append decode_from]; [reflexivity|].
  destruct (index_of c BASE62_CHARS); [apply IH | reflexivity].
Qed.

Lemma div62_lt_pow2 (f : nat) (num : Z) :
  0 < num < 2 ^ Z.of_nat (S f) -> 0 <= num / 62 < 2 ^ Z.of_nat f.
Proof.
  intros [Hpos Hlt]. rewrite Nat2Z.inj_succ, Z.pow_succ_r in Hlt by lia.
  split; [apply Z.div_pos; lia|].
  apply Z.div_lt_upper_bound; lia.
Qed.

(** The loop has consumed [num] when it stops: with the fuel [encodeBase62]
    gives it, it reads back as [num]. *)
Lemma decode_encode_loop (fuel : nat) : forall num,
  0 <= num < 2 ^ Z.of_nat fuel ->
  decode_from 0 (encode_loop fuel num "") = Some num.
Proof.
  induction fuel as [|f IH]; intros num Hn.
  - simpl in Hn. assert (num = 0) by lia. subst. reflexivity.
  - cbn [encode_loop]. destruct (Z.gtb_spec num 0) as [Hpos|Hle].
    + rewrite encode_loop_app, decode_from_app.
      rewrite IH by (apply div62_lt_pow2; lia).
      destruct (digit_spec (num mod 62)) as (c & Hc & Hi & _).
      { apply Z.mod_pos_bound; lia. }
      rewrite Hc. cbn [append decode_from]. rewrite Hi.
      f_equal. pose proof (Z.div_mod num 62). lia.
    + assert (num = 0) by lia. subst. reflexivity.
Qed.

Lemma bit_length_spec (num : Z) : 0 < num -> num < 2 ^ Z.of_nat (bit_length num).
Proof.
  intros Hpos. unfold bit_length.
  pose proof (Z.log2_spec num Hpos). pose proof (Z.log2_nonneg num).
  rewrite Nat2Z.inj_succ, Z2Nat.id by lia. lia.
Qed.

(** More fuel than the bound changes nothing: the loop ends by its own
    test, not for lack of fuel. *)
Lemma encode_loop_fuel (f1 : nat) : forall f2 num result,
  num < 2 ^ Z.of_nat f1 -> num < 2 ^ Z.of_nat f2 ->
  encode_loop f1 num result = encode_loop f2 num result.
Proof.
  induction f1 as [|f1 IH]; intros f2 num result H1 H2.
  - change (2 ^ Z.of_nat 0) with 1 in H1.
    destruct f2; cbn [encode_loop]; destruct (Z.gtb_spec num 0); try reflexivity; lia.
  - destruct f2 as [|f2].
    + change (2 ^ Z.of_nat 0) with 1 in H2.
      cbn [encode_loop]. destruct (Z.gtb_spec num 0); try reflexivity; lia.
    + cbn [encode_loop]. destruct (Z.gtb_spec num 0) as [Hpos|]; [|reflexivity].
      apply IH; apply div62_lt_pow2; lia.
Qed.

Lemma decode_encode (n : Z) : 0 <= n -> decodeBase62 (encodeBase62 n) = Some n.
Proof.
  intros Hn. unfold encodeBase62.
  destruct (Z.eqb_spec n 0) as [->|Hnz]; [reflexivity|].
  assert (Hd : decode_from 0 (encode_loop (bit_length n) n "") = Some n).
  { apply decode_encode_loop. split; [lia | apply bit_length_spec; lia]. }
  unfold decodeBase62.
  destruct (encode_loop (bit_length n) n "") eqn:E; [|exact Hd].
  cbn [decode_from] in Hd. congruence.
Qed.

Lemma encode_injective (n1 n2 : Z) :
  0 <= n1 -> 0 <= n2 -> encodeBase62 n1 = encodeBase62 n2 -> n1 = n2.
Proof.
  intros H1 H2 E.
  pose proof (decode_encode n1 H1) as D1. pose proof (decode_encode n2 H2) as D2.
  rewrite E in D1. congruence.
Qed.

(** ** The integer reading is the loop on doubles, below 2^53 *)

Lemma round_half_even_bounds (a b : Z) :
  0 < b -> a / b <= round_half_even a b <= a / b + 1.
Proof.
  intros Hb. unfold round_half_even.
  destruct (2 * (a mod b) <? b); [lia|].
  destruct (b <? 2 * (a mod b)); [lia|].
  destruct (Z.even (a / b)); lia.
Qed.

(** Below 2^53 the rounded quotient never reaches the next integer. *)
Lemma floor_div62_exact (num : Z) :
  0 <= num < 2 ^ 53 -> floor_div62 num = num / 62.
Proof.
  intros [Hlo Hhi]. unfold floor_div62.
  destruct (Z.ltb_spec num 62) as [Hsmall|Hbig].
  - symmetry. apply Z.div_small. lia.
  - set (q0 := num / 62). set (e := Z.log2 q0).
    assert (Hq0 : 1 <= q0) by (apply Z.div_le_lower_bound; lia).
    assert (Hq48 : q0 < 2 ^ 48).
    { apply Z.div_lt_upper_bound; [lia|].
      change (2 ^ 53) with (32 * 2 ^ 48) in Hhi. lia. }
    assert (He0 : 0 <= e) by apply Z.log2_nonneg.
    assert (He : e < 48) by (apply Z.log2_lt_pow2; lia).
    destruct (Z.leb_spec e 52) as [_|]; [|lia].
    set (P := 2 ^ (52 - e)).
    assert (HP : 32 <= P).
    { change 32 with (2 ^ 5). apply Z.pow_le_mono_r; lia. }
    pose proof (Z.div_mod num 62 ltac:(lia)) as Hdm. fold q0 in Hdm.
    pose proof (Z.mod_pos_bound num 62 ltac:(lia)) as Hr.
    set (r0 := num mod 62) in *.
    set (t := r0 * P). set (A := q0 * P).
    assert (Ht : 0 <= t <= 61 * P) by (unfold t; nia).
    assert (HN : num * P = 62 * A + t) by (unfold A, t; rewrite Hdm; ring).
    rewrite HN.
    assert (Hquot : (62 * A + t) / 62 = A + t / 62).
    { rewrite Z.mul_comm, Z.div_add_l by lia. reflexivity. }
    assert (Hrem : (62 * A + t) mod 62 = t mod 62).
    { rewrite Z.add_comm, Z.mul_comm, Z.mod_add by lia. reflexivity. }
    pose proof (Z.div_mod t 62 ltac:(lia)) as Htdm.
    pose proof (Z.mod_pos_bound t 62 ltac:(lia)) as Htr.
    assert (Hm : A <= round_half_even (62 * A + t) 62 < A + P).
    { unfold round_half_even. rewrite Hquot, Hrem.
      destruct (Z.ltb_spec (2 * (t mod 62)) 62).
      - lia.
      - assert (t / 62 <= P - 2) by lia.
        destruct (62 <? 2 * (t mod 62)); [lia|].
        destruct (Z.even (A + t / 62)); lia. }
    symmetry. apply (Z.div_unique _ P q0 (round_half_even (62 * A + t) 62 - A)).
    + left. lia.
    + unfold A. ring.
Qed.

Lemma encode_loop_double_exact (fuel : nat) : forall num result,
  0 <= num < 2 ^ 53 -> num < 2 ^ Z.of_nat fuel ->
  encode_loop_double fuel num result = Some (encode_loop fuel num result).
Proof.
  induction fuel as [|f IH]; intros num result Hn Hf.
  - change (2 ^ Z.of_nat 0) with 1 in Hf. cbn [encode_loop_double encode_loop].
    destruct (Z.gtb_spec num 0); [lia | reflexivity].
  - cbn [encode_loop_double encode_loop].
    destruct (Z.gtb_spec num 0) as [Hpos|]; [|reflexivity].
    rewrite (floor_div62_exact num Hn).
    destruct (div62_lt_pow2 f num (conj Hpos Hf)) as [Hq0 Hq1].
    apply IH; [|exact Hq1].
    split; [exact Hq0|]. apply Z.le_lt_trans with num; [|lia].
    apply Z.div_le_upper_bound; lia.
Qed.

(** On the safe integers the source's encoder, run on doubles, returns what
    the integer reading returns. *)
Lemma encode_double_exact (n : Z) :
  0 <= n < 2 ^ 53 -> encodeBase62_double n = Some (encodeBase62 n).
Proof.
  intros Hn. unfold encodeBase62_double, encodeBase62.
  destruct (Z.eqb_spec n 0); [reflexivity|].
  apply encode_loop_double_exact; [exact Hn | apply bit_length_spec; lia].
Qed.

Lemma is_alnum_not_space (c : ascii) : is_alnum c = true -> is_white_space c = false.
Proof.
  destruct c as [[] [] [] [] [] [] [] []]; vm_compute; intros H;
    solve [reflexivity | discriminate H].
Qed.

Lemma all_alnum_app (s1 s2 : string) :
  all_alnum (s1 ++ s2) = all_alnum s1 && all_alnum s2.
Proof.
  induction s1 as [|c s1 IH]; cbn [append all_alnum]; [reflexivity|].
  rewrite IH. apply andb_assoc.
Qed.

Lemma encode_loop_alnum (fuel : nat) : forall num result,
  all_alnum result = true -> all_alnum (encode_loop fuel num result) = true.
Proof.
  induction fuel as [|f IH]; intros num result Hres; cbn [encode_loop].
  - destruct (num >? 0); exact Hres.
  - destruct (Z.gtb_spec num 0) as [Hpos|]; [|exact Hres].
    apply IH.
    destruct (digit_spec (num mod 62)) as (c & Hc & _ & Ha).
    { apply Z.mod_pos_bound; lia. }
    rewrite Hc. cbn [append all_alnum]. rewrite Ha, Hres. reflexivity.
Qed.

Lemma encode_alnum (n : Z) : all_alnum (encodeBase62 n) = true.
Proof.
  unfold encodeBase62. destruct (n =? 0); [reflexivity|].
  apply encode_loop_alnum. reflexivity.
Qed.

Lemma encode_nonempty (n : Z) : 1 <= n -> encodeBase62 n <> "".
Proof.
  intros Hn E. assert (H0 : 0 <= n) by lia.
  pose proof (decode_encode n H0) as D.
  rewrite E in D. cbn in D. first [discriminate D | injection D; lia].
Qed.

Lemma encode_loop_length (fuel : nat) : forall (k : nat) num result,
  num < 62 ^ Z.of_nat k ->
  (String.length (encode_loop fuel num result) <= k + String.length result)%nat.
Proof.
  induction fuel as [|f IH]; intros k num result Hk; cbn [encode_loop].
  - destruct (num >? 0); lia.
  - destruct (Z.gtb_spec num 0) as [Hpos|]; [|lia].
    destruct k as [|k]; [change (62 ^ Z.of_nat 0) with 1 in Hk; lia|].
    rewrite Nat2Z.inj_succ, Z.pow_succ_r in Hk by lia.
    assert (Hq : num / 62 < 62 ^ Z.of_nat k) by (apply Z.div_lt_upper_bound; lia).
    specialize (IH k (num / 62) (str_index BASE62_CHARS (num mod 62) ++ result)%string Hq).
    destruct (digit_spec (num mod 62)) as (c & Hc & _).
    { apply Z.mod_pos_bound; lia. }
    rewrite Hc in *. cbn [append String.length] in *. lia.
Qed.

(** Below 62^10 a code has at most ten characters. *)
Lemma encode_length (n : Z) :
  n < 62 ^ 10 -> (String.length (encodeBase62 n) <= 10)%nat.
Proof.
  intros Hn. unfold encodeBase62. destruct (n =? 0); [cbn; lia|].
  pose proof (encode_loop_length (bit_length n) 10 n "" Hn) as H.
  cbn [String.length] in H. lia.
Qed.

Lemma encode_well_formed (n : Z) :
  1 <= n < 62 ^ 10 -> isValidShortCode (encodeBase62 n) = true.
Proof.
  intros [Hlo Hhi]. unfold isValidShortCode, test_alnum_plus.
  pose proof (encode_nonempty n Hlo) as Hne.
  pose proof (encode_alnum n) as Ha.
  pose proof (encode_length n Hhi) as Hl.
  destruct (encodeBase62 n) as [|c s]; [congruence|].
  rewrite Ha. cbn [String.length] in *.
  apply andb_true_iff; split; [apply andb_true_iff; split; [reflexivity|]|];
    apply Z.leb_le; lia.
Qed.

(** ** Trimming *)

Lemma trimEnd_alnum (s : string) : all_alnum s = true -> trimEnd s = s.
Proof.
  induction s as [|c s IH]; cbn [all_alnum trimEnd]; [reflexivity|].
  intros H. apply andb_true_iff in H. destruct H as [Hc Hs].
  rewrite (IH Hs). destruct s; [|reflexivity].
  rewrite (is_alnum_not_space c Hc). reflexivity.
Qed.

Lemma trimStart_alnum (s : string) : all_alnum s = true -> trimStart s = s.
Proof.
  destruct s as [|c s]; cbn [all_alnum trimStart]; [reflexivity|].
  intros H. apply andb_true_iff in H. destruct H as [Hc _].
  rewrite (is_alnum_not_space c Hc). reflexivity.
Qed.

Lemma trim_alnum (s : string) : all_alnum s = true -> trim s = s.
Proof.
  intros H. unfold trim. rewrite (trimEnd_alnum s H). apply trimStart_alnum, H.
Qed.

Lemma trimStart_idempotent (s : string) : trimStart (trimStart s) = trimStart s.
Proof.
  induction s as [|c s IH]; cbn [trimStart]; [reflexivity|].
  destruct (is_white_space c) eqn:E; [exact IH|].
  cbn [trimStart]. rewrite E. reflexivity.
Qed.

Lemma trimEnd_cons (c : ascii) (s : string) :
  trimEnd (String c s) =
  match trimEnd s with
  | EmptyString => if is_white_space c then EmptyString else String c EmptyString
  | t => String c t
  end.
Proof. reflexivity. Qed.

Lemma trimEnd_idempotent (s : string) : trimEnd (trimEnd s) = trimEnd s.
Proof.
  induction s as [|c s IH]; [reflexivity|].
  rewrite trimEnd_cons. destruct (trimEnd s) as [|c' t] eqn:E.
  - destruct (is_white_space c) eqn:Ec; [reflexivity|].
    rewrite trimEnd_cons. cbn [trimEnd]. rewrite Ec. reflexivity.
  - rewrite trimEnd_cons, IH. reflexivity.
Qed.

Lemma trimEnd_trimStart (s : string) : trimEnd (trimStart s) = trimStart (trimEnd s).
Proof.
  induction s as [|c s IH]; [reflexivity|].
  rewrite trimEnd_cons. cbn [trimStart].
  destruct (is_white_space c) eqn:Ec.
  - rewrite IH. destruct (trimEnd s); cbn [trimStart]; rewrite ?Ec; reflexivity.
  - rewrite trimEnd_cons. destruct (trimEnd s); cbn [trimStart]; rewrite Ec; reflexivity.
Qed.

Lemma trim_idempotent (s : string) : trim (trim s) = trim s.
Proof.
  unfold trim. rewrite trimEnd_trimStart, trimEnd_idempotent.
  apply trimStart_idempotent.
Qed.

(** ** What a request does to the database *)

Lemma eqb_false_neq (a b : string) : String.eqb a b = false -> a <> b.
Proof. intros H E. apply String.eqb_neq in H. contradiction. Qed.

(** Every request changes the database in one of five ways. *)
Lemma serve_change (req : Request) (env : Env) (d : Db) :
  change req d (db_of (serve req env d)).
Proof.
  destruct req as [|[s|]|code|code]; unfold_handlers.
  - split_cases; try apply change_nothing.
    apply change_init; [reflexivity | assumption].
  - split_cases; try apply change_nothing;
      try (eapply change_allocate; reflexivity).
    rewrite trim_idempotent, (trim_alnum _ (encode_alnum _)) in *.
    match goal with
    | H : negb _ = false |- _ => apply negb_false_iff in H
    end.
    match goal with
    | H : (_ || _)%bool = false |- _ =>
        apply orb_false_iff in H; destruct H as [H1 H2];
        apply eqb_false_neq in H1; apply eqb_false_neq in H2
    end.
    eapply change_create; try reflexivity; eassumption.
  - split_cases; apply change_nothing.
  - split_cases; apply change_nothing.
  - split_cases; try apply change_nothing.
    all: eapply change_click; reflexivity.
Qed.

(** ** Invariants of the store *)

Lemma inc_clicks_codes (id : nat) (l : list UrlDoc) :
  map shortCode (inc_clicks id l) = map shortCode l.
Proof.
  induction l as [|d l IH]; cbn [inc_clicks map]; [reflexivity|].
  destruct (Nat.eqb (_id d) id); cbn [map shortCode]; congruence.
Qed.

Lemma inc_clicks_In (id : nat) (r : UrlDoc) (l : list UrlDoc) :
  In r (inc_clicks id l) ->
  exists r0, In r0 l /\ originalUrl r0 = originalUrl r /\ shortCode r0 = shortCode r.
Proof.
  induction l as [|d l IH]; cbn [inc_clicks]; [intros []|].
  destruct (Nat.eqb (_id d) id).
  - intros [E|Hin].
    + exists d. subst r. cbn. auto.
    + exists r. cbn. auto.
  - intros [E|Hin].
    + exists r. subst r. cbn. auto.
    + destruct (IH Hin) as (r0 & H0 & Hr0). exists r0. cbn. auto.
Qed.

Lemma existsb_code (code : string) (l : list UrlDoc) :
  existsb (matches (ByShortCode code)) l = true <-> In code (map shortCode l).
Proof.
  rewrite existsb_exists, in_map_iff. unfold matches.
  split; intros (r & H1 & H2); exists r.
  - apply String.eqb_eq in H2. auto.
  - split; [assumption | apply String.eqb_eq; assumption].
Qed.

Lemma change_codes_unique (req : Request) (d d' : Db) :
  change req d d' -> NoDup (map shortCode (urls d)) -> NoDup (map shortCode (urls d')).
Proof.
  intros [ | | | s id created _ _ _ _ Hfresh | code id _ ] Hnd; cbn [urls]; auto.
  - rewrite map_app. cbn [map shortCode].
    assert (Hnot : ~ In (encodeBase62 (next_value d)) (map shortCode (urls d))).
    { rewrite <- existsb_code. rewrite Hfresh. discriminate. }
    apply NoDup_app; [assumption | repeat constructor; intros [] |].
    intros a Ha [<-|[]]. contradiction.
  - rewrite inc_clicks_codes. assumption.
Qed.

Lemma allocated_next_pos (d : Db) : allocated d -> 1 <= next_value d.
Proof.
  unfold allocated, next_value. destruct (counter d); intros H; [|lia].
  destruct H. lia.
Qed.

Lemma allocated_below_next (d : Db) (r : UrlDoc) :
  allocated d -> In r (urls d) ->
  exists n, 1 <= n < next_value d /\ shortCode r = encodeBase62 n.
Proof.
  unfold allocated, next_value. destruct (counter d) as [v|]; intros H Hin.
  - destruct H as [_ H]. destruct (H r Hin) as (n & Hn & E).
    exists n. split; [lia | exact E].
  - rewrite H in Hin. destruct Hin.
Qed.

(** The code of the next allocation is not in the store yet. *)
Lemma allocated_fresh (d : Db) :
  allocated d ->
  existsb (matches (ByShortCode (encodeBase62 (next_value d)))) (urls d) = false.
Proof.
  intros Ha. apply not_true_is_false. rewrite existsb_code, in_map_iff.
  intros (r & E & Hin).
  destruct (allocated_below_next d r Ha Hin) as (n & Hn & En).
  rewrite En in E. apply encode_injective in E; lia.
Qed.

Lemma change_allocated (req : Request) (d d' : Db) :
  change req d d' -> allocated d -> allocated d'.
Proof.
  intros Hch Ha. pose proof (allocated_next_pos d Ha) as Hpos.
  destruct Hch as [ | _ Hnone | s _ | s id created _ _ _ _ _ | code id _ ];
    unfold allocated in *; cbn [urls counter]; auto.
  - rewrite Hnone in Ha. rewrite Ha. split; [lia | intros r []].
  - split; [exact Hpos|]. intros r Hin.
    destruct (allocated_below_next d r) as (n & Hn & E); auto.
    exists n. split; [lia | exact E].
  - split; [exact Hpos|]. intros r Hin. apply in_app_or in Hin.
    destruct Hin as [Hin | [<- | []]].
    + destruct (allocated_below_next d r) as (n & Hn & E); auto.
      exists n. split; [lia | exact E].
    + exists (next_value d). cbn [shortCode]. split; [lia | reflexivity].
  - destruct (counter d) as [v|].
    + destruct Ha as [Hv Ha]. split; [exact Hv|]. intros r Hin.
      destruct (inc_clicks_In id r _ Hin) as (r0 & H0 & _ & Ec).
      rewrite <- Ec. apply Ha, H0.
    + rewrite Ha. reflexivity.
Qed.

Lemma change_origin (req : Request) (d d' : Db) (r : UrlDoc) :
  change req d d' -> In r (urls d') ->
  (exists r0, In r0 (urls d) /\ originalUrl r0 = originalUrl r
              /\ shortCode r0 = shortCode r)
  \/ (exists s, req = PostCreate (JsString s) /\ originalUrl r = trim s).
Proof.
  intros [ | | | s id created Hreq _ _ _ _ | code id _ ]; cbn [urls]; intros Hin.
  1-3: left; exists r; auto.
  - apply in_app_or in Hin. destruct Hin as [Hin | [<- | []]].
    + left. exists r. auto.
    + right. exists s. cbn. auto.
  - left. apply (inc_clicks_In id), Hin.
Qed.

Lemma run_app (h1 h2 : list (Request * Env)) (d : Db) :
  run (h1 ++ h2) d = run h2 (run h1 d).
Proof.
  revert d. induction h1 as [|[req env] h1 IH]; intros d; cbn [run app]; auto.
Qed.

Lemma run_codes_unique (h : list (Request * Env)) : forall d,
  NoDup (map shortCode (urls d)) -> NoDup (map shortCode (urls (run h d))).
Proof.
  induction h as [|[req env] h IH]; intros d Hd; cbn [run]; [exact Hd|].
  apply IH. eapply change_codes_unique; [apply serve_change | exact Hd].
Qed.

Lemma run_allocated (h : list (Request * Env)) : forall d,
  allocated d -> allocated (run h d).
Proof.
  induction h as [|[req env] h IH]; intros d Hd; cbn [run]; [exact Hd|].
  apply IH. eapply change_allocated; [apply serve_change | exact Hd].
Qed.

Lemma run_origin (h : list (Request * Env)) : forall d r,
  In r (urls (run h d)) ->
  (exists r0, In r0 (urls d) /\ originalUrl r0 = originalUrl r
              /\ shortCode r0 = shortCode r)
  \/ (exists s env, In (PostCreate (JsString s), env) h /\ originalUrl r = trim s).
Proof.
  induction h as [|[req env] h IH]; intros d r Hin; cbn [run] in Hin.
  - left. exists r. auto.
  - destruct (IH _ _ Hin) as [(r1 & H1 & Eo & Ec) | (s & env' & Hs & E)].
    + destruct (change_origin req d _ r1 (serve_change req env d) H1)
        as [(r0 & H0 & Eo0 & Ec0) | (s & -> & E)].
      * left. exists r0. repeat split; congruence.
      * right. exists s, env. split; [left; reflexivity | congruence].
    + right. exists s, env'. split; [right; exact Hs | exact E].
Qed.

Lemma empty_store_allocated : allocated empty_store.
Proof. reflexivity. Qed.

Lemma unique_code_record (l : list UrlDoc) (a b : UrlDoc) :
  NoDup (map shortCode l) -> In a l -> In b l -> shortCode a = shortCode b -> a = b.
Proof.
  induction l as [|x l IH]; cbn [map]; intros Hnd Ha Hb E; [destruct Ha|].
  apply NoDup_cons_iff in Hnd. destruct Hnd as [Hx Hnd].
  destruct Ha as [<-|Ha], Hb as [<-|Hb]; auto.
  - exfalso. apply Hx. rewrite E. apply in_map, Hb.
  - exfalso. apply Hx. rewrite <- E. apply in_map, Ha.
Qed.

(** ** The Shortening Service, branch by branch *)

Lemma valid_nonempty (s : string) : isValidUrl s = true -> s <> "".
Proof.
  intros H ->. unfold isValidUrl in H. rewrite URL_empty in H. discriminate.
Qed.

Lemma valid_trim_nonempty (s : string) : isValidUrl (trim s) = true -> s <> "".
Proof. intros H ->. apply (valid_nonempty _ H). reflexivity. Qed.

(** The URL is stored already: its code is returned and nothing changes. *)
Lemma post_existing (s : string) (env : Env) (d : Db) (e : UrlDoc) :
  isValidUrl (trim s) = true ->
  avail env 0%nat = true ->
  find (matches (ByOriginalUrl (trim s))) (urls d) = Some e ->
  serve (PostCreate (JsString s)) env d =
  (Some (res_json 200 (JsonShort (short_url (shortCode e)) (shortCode e) (trim s)
                         "URL already exists")),
   d, [UrlFindOne (ByOriginalUrl (trim s))]).
Proof.
  intros Hvalid H0 Hfind. pose proof (valid_trim_nonempty s Hvalid) as Hs.
  destruct s as [|c s]; [congruence|].
  unfold_handlers. rewrite Hvalid. cbn [negb]. reduce.
  rewrite H0, Hfind. reflexivity.
Qed.

(** The URL is new and the code of the next allocation is free: the record
    is created. *)
Lemma post_created (s : string) (env : Env) (d : Db) :
  isValidUrl (trim s) = true ->
  avail env 0%nat = true -> avail env 1%nat = true -> avail env 2%nat = true ->
  find (matches (ByOriginalUrl (trim s))) (urls d) = None ->
  1 <= next_value d ->
  existsb (matches (ByShortCode (encodeBase62 (next_value d)))) (urls d) = false ->
  serve (PostCreate (JsString s)) env d =
  (Some (res_json 201 (JsonShort (short_url (encodeBase62 (next_value d)))
                         (encodeBase62 (next_value d)) (trim s)
                         "Short URL created successfully")),
   {| urls := urls d ++ [ {| _id := fresh_id (urls d); originalUrl := trim s;
                             shortCode := encodeBase62 (next_value d);
                             clicks := 0; createdAt := now env |} ];
      counter := Some (next_value d) |},
   [UrlFindOne (ByOriginalUrl (trim s)); CounterInc;
    UrlInsert (trim s) (encodeBase62 (next_value d))]).
Proof.
  intros Hvalid H0 H1 H2 Hfind Hpos Hfresh.
  pose proof (valid_trim_nonempty s Hvalid) as Hs.
  pose proof (valid_nonempty _ Hvalid) as Ht. apply String.eqb_neq in Ht.
  pose proof (encode_nonempty _ Hpos) as Hc. apply String.eqb_neq in Hc.
  destruct s as [|c s]; [congruence|].
  unfold_handlers. rewrite Hvalid. cbn [negb]. reduce.
  rewrite H0, Hfind. reduce. rewrite H1. reduce.
  rewrite trim_idempotent, (trim_alnum _ (encode_alnum _)).
  rewrite Ht, Hc. cbn [orb]. reduce. rewrite H2, Hfresh. reflexivity.
Qed.

(** The URL is new but the code of the next allocation is taken: the unique
    index rejects the insert, the handler answers 500 and stops. *)
Lemma post_conflict (s : string) (env : Env) (d : Db) :
  isValidUrl (trim s) = true ->
  avail env 0%nat = true -> avail env 1%nat = true -> avail env 2%nat = true ->
  find (matches (ByOriginalUrl (trim s))) (urls d) = None ->
  1 <= next_value d ->
  existsb (matches (ByShortCode (encodeBase62 (next_value d)))) (urls d) = true ->
  serve (PostCreate (JsString s)) env d =
  (Some (res_json 500 (JsonError "Internal server error. Please try again.")),
   {| urls := urls d; counter := Some (next_value d) |},
   [UrlFindOne (ByOriginalUrl (trim s)); CounterInc;
    UrlInsert (trim s) (encodeBase62 (next_value d))]).
Proof.
  intros Hvalid H0 H1 H2 Hfind Hpos Htaken.
  pose proof (valid_trim_nonempty s Hvalid) as Hs.
  pose proof (valid_nonempty _ Hvalid) as Ht. apply String.eqb_neq in Ht.
  pose proof (encode_nonempty _ Hpos) as Hc. apply String.eqb_neq in Hc.
  destruct s as [|c s]; [congruence|].
  unfold_handlers. rewrite Hvalid. cbn [negb]. reduce.
  rewrite H0, Hfind. reduce. rewrite H1. reduce.
  rewrite trim_idempotent, (trim_alnum _ (encode_alnum _)).
  rewrite Ht, Hc. cbn [orb]. reduce. rewrite H2, Htaken. reflexivity.
Qed.

(** ** The Resolution Service, branch by branch *)

Lemma prefix_api_not_alnum (code : string) :
  startsWith code "api/" = true -> all_alnum code = false.
Proof.
  unfold startsWith.
  destruct code as [|c1 [|c2 [|c3 [|c4 rest]]]]; cbn [String.prefix];
    repeat match goal with
      | |- context [Ascii.ascii_dec ?a ?b] => destruct (Ascii.ascii_dec a b); subst
      end; try discriminate.
  intros _. reflexivity.
Qed.

Lemma reserved_not_well_formed (code : string) :
  reserved_path code = true -> isValidShortCode code = false.
Proof.
  unfold reserved_path, isValidShortCode, test_alnum_plus. intros H.
  apply orb_true_iff in H. destruct H as [H|H]; [apply orb_true_iff in H; destruct H as [H|H]|].
  - apply String.eqb_eq in H. subst. reflexivity.
  - pose proof (prefix_api_not_alnum code H) as Ha.
    destruct code; [reflexivity|]. rewrite Ha. reflexivity.
  - apply String.eqb_eq in H. subst. reflexivity.
Qed.

Lemma well_formed_not_reserved (code : string) :
  isValidShortCode code = true -> reserved_path code = false.
Proof.
  intros H. destruct (reserved_path code) eqn:E; [|reflexivity].
  rewrite (reserved_not_well_formed code E) in H. discriminate.
Qed.

Lemma redirect_reserved (code : string) (env : Env) (d : Db) :
  reserved_path code = true ->
  serve (GetRedirect code) env d =
  (Some (res_json 404 (JsonError "Page not found")), d, []).
Proof.
  intros H. unfold reserved_path in H. unfold_handlers. rewrite H. reflexivity.
Qed.

Lemma redirect_malformed (code : string) (env : Env) (d : Db) :
  reserved_path code = false -> isValidShortCode code = false ->
  serve (GetRedirect code) env d =
  (Some (res_json 400 (JsonError "Invalid short code format")), d, []).
Proof.
  intros H Hv. unfold reserved_path in H. unfold_handlers. rewrite H, Hv. reflexivity.
Qed.

Lemma redirect_unavailable (code : string) (env : Env) (d : Db) :
  isValidShortCode code = true -> avail env 0%nat = false ->
  serve (GetRedirect code) env d =
  (Some (res_json 500 (JsonError "Internal server error")), d,
   [UrlFindOne (ByShortCode code)]).
Proof.
  intros Hv H0. pose proof (well_formed_not_reserved code Hv) as H.
  unfold reserved_path in H. unfold_handlers. rewrite H, Hv. cbn [negb]. reduce.
  rewrite H0. reflexivity.
Qed.

Lemma redirect_missing (code : string) (env : Env) (d : Db) :
  isValidShortCode code = true -> avail env 0%nat = true ->
  find (matches (ByShortCode code)) (urls d) = None ->
  serve (GetRedirect code) env d =
  (Some (res_json 404 (JsonNotFound "Short URL not found" code)), d,
   [UrlFindOne (ByShortCode code)]).
Proof.
  intros Hv H0 Hfind. pose proof (well_formed_not_reserved code Hv) as H.
  unfold reserved_path in H. unfold_handlers. rewrite H, Hv. cbn [negb]. reduce.
  rewrite H0, Hfind. reflexivity.
Qed.

(** A record is found: the response is built from it alone; the click
    update runs afterwards and only the database sees its outcome. *)
Lemma redirect_found (code : string) (env : Env) (d : Db) (r : UrlDoc) :
  isValidShortCode code = true -> avail env 0%nat = true ->
  find (matches (ByShortCode code)) (urls d) = Some r ->
  serve (GetRedirect code) env d =
  (Some {| statusCode := 302; body := Location (encodeUrl (originalUrl r)) |},
   (if avail env 1%nat
    then {| urls := inc_clicks (_id r) (urls d); counter := counter d |}
    else d),
   [UrlFindOne (ByShortCode code); UrlIncClicks (_id r)]).
Proof.
  intros Hv H0 Hfind. pose proof (well_formed_not_reserved code Hv) as H.
  unfold reserved_path in H. unfold_handlers. rewrite H, Hv. cbn [negb]. reduce.
  rewrite H0, Hfind. reduce. destruct (avail env 1%nat); reflexivity.
Qed.


Lemma find_by_code_unique (l : list UrlDoc) (r : UrlDoc) :
  NoDup (map shortCode l) -> In r l ->
  find (matches (ByShortCode (shortCode r))) l = Some r.
Proof.
  intros Hnd Hin.
  destruct (find (matches (ByShortCode (shortCode r))) l) as [r'|] eqn:E.
  - apply find_some in E. destruct E as [Hin' Hm]. cbn in Hm.
    apply String.eqb_eq in Hm. f_equal. eapply unique_code_record; eauto.
  - pose proof (find_none _ _ E r Hin) as Hm. cbn in Hm.
    rewrite String.eqb_refl in Hm. discriminate.
Qed.

(** ** The Sequence Allocator *)

Lemma next_resolved (env : Env) (d : Db) :
  avail env 0%nat = true ->
  getNextCounterValue env {| db := d; issued := [] |} =
  (Resolved (next_value d),
   {| db := {| urls := urls d; counter := Some (next_value d) |};
      issued := [CounterInc] |}).
Proof. intros H. unfold_handlers. reduce. rewrite H. reflexivity. Qed.

Lemma next_rejected (env : Env) (d : Db) :
  avail env 0%nat = false ->
  getNextCounterValue env {| db := d; issued := [] |} =
  (Rejected Unavailable, {| db := d; issued := [CounterInc] |}).
Proof. intros H. unfold_handlers. reduce. rewrite H. reflexivity. Qed.

(** Every value a sequence of calls returns is at least the next value of
    the counter it started from, and the values come out in increasing
    order. *)
Lemma allocations_sorted (envs : list Env) : forall d,
  Forall (fun v => next_value d <= v) (allocations envs d)
  /\ StronglySorted Z.lt (allocations envs d).
Proof.
  induction envs as [|env envs IH]; intros d; cbn [allocations].
  - split; constructor.
  - destruct (avail env 0%nat) eqn:E.
    + rewrite (next_resolved env d E). cbn [db].
      destruct (IH {| urls := urls d; counter := Some (next_value d) |}) as [Hge Hs].
      unfold next_value at 1 in Hge. cbn [counter] in Hge.
      split.
      * constructor; [lia|]. eapply Forall_impl; [|exact Hge]. cbn. intros; lia.
      * constructor; [exact Hs|]. eapply Forall_impl; [|exact Hge]. cbn. intros; lia.
    + rewrite (next_rejected env d E). cbn [db]. apply IH.
Qed.

Lemma sorted_NoDup (l : list Z) : StronglySorted Z.lt l -> NoDup l.
Proof.
  induction 1 as [|a l _ IH Hall]; constructor; [|exact IH].
  intros Hin. rewrite Forall_forall in Hall. specialize (Hall a Hin). lia.
Qed.

Lemma find_app {A} (f : A -> bool) (l1 l2 : list A) :
  find f (l1 ++ l2) =
  match find f l1 with
  | Some x => Some x
  | None => find f l2
  end.
Proof.
  induction l1 as [|a l1 IH]; cbn [app find]; [reflexivity|].
  destruct (f a); [reflexivity | exact IH].
Qed.

(** While the counter is below 62^10 every stored code passes the format
    check of the handlers. *)
Lemma stored_codes_well_formed (h : list (Request * Env)) (r : UrlDoc) (v : Z) :
  counter (run h empty_store) = Some v -> v < 62 ^ 10 ->
  In r (urls (run h empty_store)) ->
  isValidShortCode (shortCode r) = true.
Proof.
  intros Hv Hlt Hin.
  assert (Ha : allocated (run h empty_store)) by (apply run_allocated, empty_store_allocated).
  destruct (allocated_below_next _ r Ha Hin) as (n & Hn & ->).
  unfold next_value in Hn. rewrite Hv in Hn.
  apply encode_well_formed. lia.
Qed.

(** ** Properties of the specification *)

(** C1. Starting from the empty store, after any history of startup,
    shorten, resolve and info requests (whatever the backend's availability
    during each), two records stored at different positions have different
    short codes. *)
Theorem short_codes_unique (h : list (Request * Env)) (i j : nat) (r1 r2 : UrlDoc) :
  nth_error (urls (run h empty_store)) i = Some r1 ->
  nth_error (urls (run h empty_store)) j = Some r2 ->
  i <> j ->
  shortCode r1 <> shortCode r2.
Proof.
  intros H1 H2 Hij E.
  assert (Hnd : NoDup (map shortCode (urls (run h empty_store)))).
  { apply run_codes_unique. constructor. }
  rewrite NoDup_nth_error in Hnd. apply Hij, Hnd.
  - rewrite length_map. apply nth_error_Some. congruence.
  - rewrite !nth_error_map, H1, H2. cbn. congruence.
Qed.

(** C2, as amended. For every non-negative integer [n] below 2^53, the
    source's encoder (run on doubles) returns a code that decodes to [n],
    and two different such integers have different codes. *)
Theorem encode_roundtrip_injective :
  (forall n, 0 <= n < 2 ^ 53 ->
     exists code, encodeBase62_double n = Some code /\ decodeBase62 code = Some n)
  /\ (forall n1 n2, 0 <= n1 < 2 ^ 53 -> 0 <= n2 < 2 ^ 53 -> n1 <> n2 ->
      encodeBase62_double n1 <> encodeBase62_double n2).
Proof.
  split.
  - intros n Hn. exists (encodeBase62 n). split.
    + apply encode_double_exact, Hn.
    + apply decode_encode. lia.
  - intros n1 n2 H1 H2 Hne E. apply Hne.
    rewrite (encode_double_exact n1 H1), (encode_double_exact n2 H2) in E.
    injection E as E. apply encode_injective; [lia | lia | exact E].
Qed.

(** C3. In a store reached from the empty one, shortening a valid URL twice
    (the backend answering both requests) returns the same short code both
    times: the second answer has status 200 and says the URL exists, the
    first has status 201 when the URL was not stored yet and 200 when it
    was; the second request changes nothing. *)
Theorem shorten_twice_same_code (h : list (Request * Env)) (u : string) (e1 e2 : Env) :
  isValidUrl (trim u) = true ->
  avail e1 0%nat = true -> avail e1 1%nat = true -> avail e1 2%nat = true ->
  avail e2 0%nat = true ->
  let d0 := run h empty_store in
  let first := serve (PostCreate (JsString u)) e1 d0 in
  let second := serve (PostCreate (JsString u)) e2 (db_of first) in
  exists code,
    response_of first =
      Some (match find (matches (ByOriginalUrl (trim u))) (urls d0) with
            | None => res_json 201 (JsonShort (short_url code) code (trim u)
                                      "Short URL created successfully")
            | Some _ => res_json 200 (JsonShort (short_url code) code (trim u)
                                        "URL already exists")
            end)
    /\ response_of second =
         Some (res_json 200 (JsonShort (short_url code) code (trim u)
                               "URL already exists"))
    /\ db_of second = db_of first.
Proof.
  intros Hvalid H0 H1 H2 H0' d0 first second. subst first second.
  assert (Ha : allocated d0) by (apply run_allocated, empty_store_allocated).
  destruct (find (matches (ByOriginalUrl (trim u))) (urls d0)) as [e|] eqn:Hfind.
  - exists (shortCode e).
    rewrite (post_existing u e1 d0 e Hvalid H0 Hfind). cbn [db_of response_of fst snd].
    rewrite (post_existing u e2 d0 e Hvalid H0' Hfind). auto.
  - exists (encodeBase62 (next_value d0)).
    rewrite (post_created u e1 d0 Hvalid H0 H1 H2 Hfind
               (allocated_next_pos d0 Ha) (allocated_fresh d0 Ha)).
    cbn [db_of response_of fst snd].
    match goal with
    | |- context [serve _ e2 ?d1] =>
        assert (Hfind1 : exists e, find (matches (ByOriginalUrl (trim u))) (urls d1) = Some e
                                   /\ shortCode e = encodeBase62 (next_value d0))
    end.
    { cbn [urls]. rewrite find_app, Hfind. cbn [find matches originalUrl].
      rewrite String.eqb_refl. eexists. split; reflexivity. }
    destruct Hfind1 as (e & Hfind1 & Ecode).
    rewrite (post_existing u e2 _ e Hvalid H0' Hfind1), Ecode. auto.
Qed.

(** C4. As long as the counter is below 2^53, [getNextCounterValue] adds
    one to it and returns the value after the increment; over any sequence
    of calls, answered or not, that stays within 2^53 the returned values
    are strictly increasing and none is returned twice; no request of the
    server ever lowers the counter; [initializeCounter], when the backend
    answers it, creates a missing counter with the value 100000 and leaves
    an existing one as it is.  But when the counter is missing at an
    allocation, the upsert of [getNextCounterValue] creates it with the
    value 1, not with the starting value. *)
Theorem sequence_allocation :
  (forall env d v,
      counter d = Some v -> v < 2 ^ 53 -> avail env 0%nat = true ->
      getNextCounterValue env {| db := d; issued := [] |} =
      (Resolved (v + 1),
       {| db := {| urls := urls d; counter := Some (v + 1) |};
          issued := [CounterInc] |}))
  /\ (forall env d,
         counter d = None -> avail env 0%nat = true ->
         getNextCounterValue env {| db := d; issued := [] |} =
         (Resolved 1,
          {| db := {| urls := urls d; counter := Some 1 |}; issued := [CounterInc] |}))
  /\ (forall envs d,
         next_value d + Z.of_nat (length envs) <= 2 ^ 53 ->
         StronglySorted Z.lt (allocations envs d) /\ NoDup (allocations envs d))
  /\ (forall req env d v,
         counter d = Some v ->
         exists v', counter (db_of (serve req env d)) = Some v' /\ v <= v')
  /\ (forall env d,
         counter d = None -> avail env 0%nat = true -> avail env 1%nat = true ->
         db (snd (initializeCounter env {| db := d; issued := [] |})) =
         {| urls := urls d; counter := Some 100000 |})
  /\ (forall env d v,
         counter d = Some v ->
         db (snd (initializeCounter env {| db := d; issued := [] |})) = d).
Proof.
  repeat split.
  - intros env d v Hv _ H0. rewrite (next_resolved env d H0).
    unfold next_value. rewrite Hv. reflexivity.
  - intros env d Hnone H0. rewrite (next_resolved env d H0).
    unfold next_value. rewrite Hnone. reflexivity.
  - apply allocations_sorted.
  - apply sorted_NoDup, allocations_sorted.
  - intros req env d v Hv.
    destruct (serve_change req env d) as [ | _ Hnone | s _ | s id created _ _ _ _ _ | code id _ ];
      cbn [counter]; unfold next_value; rewrite ?Hv;
      try (eexists; split; [reflexivity | lia]).
    congruence.
  - intros env d Hnone H0 H1. unfold_handlers. reduce.
    rewrite H0. reduce. rewrite Hnone. reduce. rewrite H1, Hnone. reflexivity.
  - intros env d v Hv. unfold_handlers. reduce.
    destruct (avail env 0%nat); reduce; [rewrite Hv|]; reflexivity.
Qed.


(** C7, as amended. The redirect handler answers 400 exactly for the codes
    that are not reserved paths (empty, starting with [api/], or
    [favicon.ico]) and fail the format check; it then issues no database
    call and leaves the database alone; a code that passes the check is
    never answered 400. *)
Theorem malformed_code_rejected (code : string) (env : Env) (d : Db) :
  (option_map statusCode (response_of (serve (GetRedirect code) env d)) = Some 400
   <-> reserved_path code = false /\ isValidShortCode code = false)
  /\ (reserved_path code = false -> isValidShortCode code = false ->
      serve (GetRedirect code) env d =
      (Some (res_json 400 (JsonError "Invalid short code format")), d, []))
  /\ (isValidShortCode code = true ->
      option_map statusCode (response_of (serve (GetRedirect code) env d)) <> Some 400).
Proof.
  assert (Hvalid : isValidShortCode code = true ->
            option_map statusCode (response_of (serve (GetRedirect code) env d)) <> Some 400).
  { intros Hv. destruct (avail env 0%nat) eqn:H0.
    - destruct (find (matches (ByShortCode code)) (urls d)) as [r|] eqn:Hfind.
      + rewrite (redirect_found code env d r Hv H0 Hfind). discriminate.
      + rewrite (redirect_missing code env d Hv H0 Hfind). discriminate.
    - rewrite (redirect_unavailable code env d Hv H0). discriminate. }
  split; [|split; [apply redirect_malformed | exact Hvalid]].
  destruct (reserved_path code) eqn:Hr.
  - rewrite (redirect_reserved code env d Hr). split; [discriminate | intros [? _]; discriminate].
  - destruct (isValidShortCode code) eqn:Hv.
    + split; [intros H; destruct (Hvalid eq_refl H) | intros [_ ?]; discriminate].
    + rewrite (redirect_malformed code env d Hr Hv). split; auto.
Qed.

(** C8. When the insert of a new URL is rejected because its code is
    already stored, the handler answers with the server error (status 500)
    after exactly one allocation and one insert attempt: the counter has
    advanced by one and no record was created.  Whatever happens, a shorten
    request allocates at most once, tries at most one insert, adds at most
    one record and advances the counter by at most one. *)
Theorem duplicate_code_is_hard_error :
  (forall s env d,
      isValidUrl (trim s) = true ->
      avail env 0%nat = true -> avail env 1%nat = true -> avail env 2%nat = true ->
      find (matches (ByOriginalUrl (trim s))) (urls d) = None ->
      1 <= next_value d ->
      existsb (matches (ByShortCode (encodeBase62 (next_value d)))) (urls d) = true ->
      serve (PostCreate (JsString s)) env d =
      (Some (res_json 500 (JsonError "Internal server error. Please try again.")),
       {| urls := urls d; counter := Some (next_value d) |},
       [UrlFindOne (ByOriginalUrl (trim s)); CounterInc;
        UrlInsert (trim s) (encodeBase62 (next_value d))]))
  /\ (forall v env d,
         let r := serve (PostCreate v) env d in
         (count_ops is_allocation (calls_of r) <= 1)%nat
         /\ (count_ops is_insert (calls_of r) <= 1)%nat
         /\ (length (urls (db_of r)) <= length (urls d) + 1)%nat
         /\ (counter (db_of r) = counter d
             \/ counter (db_of r) = Some (next_value d))).
Proof.
  split; [exact post_conflict|].
  intros [s|] env d; unfold_handlers; split_cases;
    cbn [count_ops filter is_allocation is_insert length];
    rewrite ?length_app; cbn [length];
    repeat split; auto; lia.
Qed.

(** C9. For a well-formed code with a stored record and the backend
    answering the lookup, the response is the same whether the click update
    is carried out or rejected: a redirect to the record's [originalUrl],
    as Express writes it into the [Location].
    Its status is 302, not the 301 the handler sets before it calls
    [redirect]. *)
Theorem redirect_ignores_click_outcome (code : string) (e1 e2 : Env) (d : Db) (r : UrlDoc) :
  isValidShortCode code = true ->
  find (matches (ByShortCode code)) (urls d) = Some r ->
  avail e1 0%nat = true -> avail e1 1%nat = true ->
  avail e2 0%nat = true -> avail e2 1%nat = false ->
  response_of (serve (GetRedirect code) e1 d)
  = Some {| statusCode := 302; body := Location (encodeUrl (originalUrl r)) |}
  /\ response_of (serve (GetRedirect code) e2 d)
     = Some {| statusCode := 302; body := Location (encodeUrl (originalUrl r)) |}
  /\ db_of (serve (GetRedirect code) e2 d) = d.
Proof.
  intros Hv Hfind H0 H1 H0' H1'.
  rewrite (redirect_found code e1 d r Hv H0 Hfind).
  rewrite (redirect_found code e2 d r Hv H0' Hfind).
  rewrite H1'. auto.
Qed.

(** C10. A path that is empty, starts with [api/] or is [favicon.ico] is
    answered "Page not found" (404) by the redirect handler without any
    database call, lookup or click update; each such path also fails the
    short-code format check, yet is not answered 400. *)
Theorem reserved_paths_not_found (code : string) (env : Env) (d : Db) :
  code = "" \/ startsWith code "api/" = true \/ code = "favicon.ico" ->
  serve (GetRedirect code) env d =
  (Some (res_json 404 (JsonError "Page not found")), d, [])
  /\ isValidShortCode code = false.
Proof.
  intros H.
  assert (Hr : reserved_path code = true).
  { unfold reserved_path. destruct H as [-> | [-> | ->]];
      [reflexivity | apply orb_true_iff; left; apply orb_true_r | reflexivity]. }
  split; [apply redirect_reserved | apply reserved_not_well_formed]; exact Hr.
Qed.

(** ** More about the encoder *)

Lemma encode_loop_zero (fuel : nat) (result : string) :
  encode_loop fuel 0 result = result.
Proof. destruct fuel; reflexivity. Qed.

Lemma encode_loop_head (fuel : nat) : forall num,
  0 < num < 2 ^ Z.of_nat fuel ->
  exists c rest, encode_loop fuel num "" = String c rest /\ c <> "0"%char.
Proof.
  induction fuel as [|f IH]; intros num [Hpos Hlt].
  - change (2 ^ Z.of_nat 0) with 1 in Hlt. lia.
  - cbn [encode_loop]. destruct (Z.gtb_spec num 0) as [_|]; [|lia].
    destruct (digit_spec (num mod 62)) as (c & Hc & Hi & _).
    { apply Z.mod_pos_bound; lia. }
    rewrite Hc. cbn [append].
    destruct (Z.eq_dec (num / 62) 0) as [Hq|Hq].
    + rewrite Hq, encode_loop_zero. exists c, "". split; [reflexivity|].
      intros ->. change (index_of "0"%char BASE62_CHARS) with (Some 0) in Hi.
      pose proof (Z.div_mod num 62). assert (num mod 62 = 0) by congruence. lia.
    + destruct (div62_lt_pow2 f num (conj Hpos Hlt)) as [Hq0 Hq1].
      destruct (IH (num / 62)) as (c' & rest & E & Hc'); [lia|].
      rewrite encode_loop_app, E. cbn [append]. eauto.
Qed.

Lemma encode_loop_grows (fuel : nat) : forall num result,
  (String.length result <= String.length (encode_loop fuel num result))%nat.
Proof.
  induction fuel as [|f IH]; intros num result; cbn [encode_loop].
  - destruct (num >? 0); lia.
  - destruct (Z.gtb_spec num 0) as [Hpos|]; [|lia].
    specialize (IH (num / 62) (str_index BASE62_CHARS (num mod 62) ++ result)%string).
    destruct (digit_spec (num mod 62)) as (c & Hc & _).
    { apply Z.mod_pos_bound; lia. }
    rewrite Hc in *. cbn [append String.length] in *. lia.
Qed.

Lemma encode_loop_length_lower (fuel : nat) : forall (k : nat) num result,
  62 ^ Z.of_nat k <= num -> num < 2 ^ Z.of_nat fuel ->
  (k + 1 + String.length result <= String.length (encode_loop fuel num result))%nat.
Proof.
  induction fuel as [|f IH]; intros k num result Hk Hlt.
  - change (2 ^ Z.of_nat 0) with 1 in Hlt.
    pose proof (Z.pow_pos_nonneg 62 (Z.of_nat k)). lia.
  - assert (Hpos : 0 < num).
    { pose proof (Z.pow_pos_nonneg 62 (Z.of_nat k)). lia. }
    cbn [encode_loop]. destruct (Z.gtb_spec num 0) as [_|]; [|lia].
    destruct (digit_spec (num mod 62)) as (c & Hc & _).
    { apply Z.mod_pos_bound; lia. }
    rewrite Hc. cbn [append].
    destruct k as [|k].
    + pose proof (encode_loop_grows f (num / 62) (String c result)) as H.
      cbn [String.length] in H. lia.
    + rewrite Nat2Z.inj_succ, Z.pow_succ_r in Hk by lia.
      assert (Hq : 62 ^ Z.of_nat k <= num / 62) by (apply Z.div_le_lower_bound; lia).
      destruct (div62_lt_pow2 f num (conj Hpos Hlt)) as [_ Hq1].
      specialize (IH k (num / 62) (String c result) Hq Hq1).
      cbn [String.length] in IH. lia.
Qed.

(** X1. The code of a positive integer is in canonical form: it is not
    empty, all its characters are of the alphabet, and it does not start
    with the zero digit. *)
Theorem encode_canonical (n : Z) :
  0 < n ->
  exists c rest,
    encodeBase62 n = String c rest
    /\ c <> "0"%char
    /\ all_alnum (encodeBase62 n) = true.
Proof.
  intros Hn. unfold encodeBase62 at 1.
  destruct (Z.eqb_spec n 0) as [|_]; [lia|].
  destruct (encode_loop_head (bit_length n) n) as (c & rest & E & Hc).
  { split; [lia | apply bit_length_spec; lia]. }
  exists c, rest. auto using encode_alnum.
Qed.

Lemma encode_length_digits (n : Z) (k : nat) :
  62 ^ Z.of_nat k <= n < 62 ^ Z.of_nat (S k) ->
  String.length (encodeBase62 n) = S k.
Proof.
  intros [Hlo Hhi].
  assert (Hpos : 0 < n).
  { pose proof (Z.pow_pos_nonneg 62 (Z.of_nat k)). lia. }
  unfold encodeBase62. destruct (Z.eqb_spec n 0) as [|_]; [lia|].
  pose proof (encode_loop_length (bit_length n) (S k) n "" Hhi) as Hup.
  pose proof (encode_loop_length_lower (bit_length n) k n "" Hlo
                (bit_length_spec n Hpos)) as Hdown.
  cbn [String.length] in *. lia.
Qed.

(** X2. Below 2^53 the code the source's encoder returns for [n] has
    exactly as many characters as [n] has base-62 digits: [k + 1] when
    [62^k <= n < 62^(k+1)]. *)
Theorem encode_length_exact (n : Z) (k : nat) :
  62 ^ Z.of_nat k <= n < 62 ^ Z.of_nat (S k) ->
  n < 2 ^ 53 ->
  exists code, encodeBase62_double n = Some code /\ String.length code = S k.
Proof.
  intros Hk Hsafe. exists (encodeBase62 n). split.
  - apply encode_double_exact. split; [|exact Hsafe].
    pose proof (Z.pow_pos_nonneg 62 (Z.of_nat k)). lia.
  - apply encode_length_digits, Hk.
Qed.

(** On integers, a code passes the format check exactly up to 62^10 - 1. *)
Lemma encode_well_formed_iff (n : Z) :
  isValidShortCode (encodeBase62 n) = true <-> 0 <= n < 62 ^ 10.
Proof.
  split.
  - intros Hv. destruct (Z.ltb_spec n 0) as [Hneg|Hnn].
    + replace (encodeBase62 n) with "" in Hv; [discriminate|].
      unfold encodeBase62. destruct (Z.eqb_spec n 0); [lia|].
      unfold bit_length. cbn [encode_loop].
      destruct (Z.gtb_spec n 0); [lia | reflexivity].
    + split; [exact Hnn|]. destruct (Z.ltb_spec n (62 ^ 10)) as [|Hbig]; [assumption|].
      exfalso. assert (Hpos : 0 < n) by lia.
      assert (Hlen : (11 <= String.length (encodeBase62 n))%nat).
      { unfold encodeBase62. destruct (Z.eqb_spec n 0); [lia|].
        pose proof (encode_loop_length_lower (bit_length n) 10 n "" Hbig
                      (bit_length_spec n Hpos)) as H.
        cbn [String.length] in H. lia. }
      unfold isValidShortCode in Hv.
      apply andb_true_iff in Hv. destruct Hv as [_ Hv]. apply Z.leb_le in Hv. lia.
  - intros [Hlo Hhi]. destruct (Z.eq_dec n 0) as [->|Hnz]; [reflexivity|].
    apply encode_well_formed. lia.
Qed.

(** X3. For every integer [n] between -2^53 and 2^53 the source's encoder
    returns a code of at most nine characters, and the code passes the
    handlers' format check exactly when [n] is not negative (a negative
    number encodes to the empty string). *)
Theorem encode_passes_format_check (n : Z) :
  - 2 ^ 53 < n < 2 ^ 53 ->
  exists code,
    encodeBase62_double n = Some code
    /\ (String.length code <= 9)%nat
    /\ (isValidShortCode code = true <-> 0 <= n).
Proof.
  intros [Hlo Hhi]. destruct (Z.ltb_spec n 0) as [Hneg|Hnn].
  - exists "". repeat split.
    + unfold encodeBase62_double. destruct (Z.eqb_spec n 0); [lia|].
      unfold bit_length. cbn [encode_loop_double].
      destruct (Z.gtb_spec n 0); [lia | reflexivity].
    + cbn. lia.
    + discriminate.
    + lia.
  - exists (encodeBase62 n). repeat split.
    + apply encode_double_exact. lia.
    + unfold encodeBase62. destruct (Z.eqb_spec n 0); [cbn; lia|].
      assert (H9 : n < 62 ^ Z.of_nat 9).
      { apply Z.lt_trans with (2 ^ 53); [exact Hhi | reflexivity]. }
      pose proof (encode_loop_length (bit_length n) 9 n "" H9) as H.
      cbn [String.length] in H. lia.
    + lia.
    + intros _. apply encode_well_formed_iff. split; [exact Hnn|].
      apply Z.lt_trans with (2 ^ 53); [exact Hhi | reflexivity].
Qed.

(** ** Effects of a request on the records *)

(** A request leaves the records alone, appends one (a create that was
    answered 201), or clicks one (a redirect whose update was carried
    out). *)
Lemma serve_effect (req : Request) (env : Env) (d : Db) :
  urls (db_of (serve req env d)) = urls d
  \/ (exists s,
         req = PostCreate (JsString s)
         /\ isValidUrl (trim s) = true
         /\ find (matches (ByOriginalUrl (trim s))) (urls d) = None
         /\ existsb (matches (ByShortCode (encodeBase62 (next_value d)))) (urls d) = false
         /\ urls (db_of (serve req env d)) =
            urls d ++ [ {| _id := fresh_id (urls d); originalUrl := trim s;
                           shortCode := encodeBase62 (next_value d);
                           clicks := 0; createdAt := now env |} ]
         /\ response_of (serve req env d) =
            Some (res_json 201
                    (JsonShort (short_url (encodeBase62 (next_value d)))
                       (encodeBase62 (next_value d)) (trim s)
                       "Short URL created successfully")))
  \/ (exists code r,
         req = GetRedirect code
         /\ find (matches (ByShortCode code)) (urls d) = Some r
         /\ avail env 1%nat = true
         /\ urls (db_of (serve req env d)) = inc_clicks (_id r) (urls d)
         /\ response_of (serve req env d) =
            Some {| statusCode := 302; body := Location (encodeUrl (originalUrl r)) |}).
Proof.
  destruct req as [|[s|]|code|code]; unfold_handlers.
  - split_cases; left; reflexivity.
  - split_cases; try (left; reflexivity).
    right; left. exists (String a s0).
    rewrite trim_idempotent, (trim_alnum _ (encode_alnum _)) in *.
    match goal with
    | H : negb _ = false |- _ => apply negb_false_iff in H
    end.
    repeat split; auto.
  - split_cases; left; reflexivity.
  - split_cases; left; reflexivity.
  - split_cases; try (left; reflexivity).
    right; right. eexists _, _. repeat split; eauto.
Qed.

(** A success answer of the create handler names a stored record. *)
Lemma post_success (v : JsValue) (env : Env) (d : Db)
    (st : Z) (su c u' m : string) :
  response_of (serve (PostCreate v) env d) = Some (res_json st (JsonShort su c u' m)) ->
  exists s,
    v = JsString s /\ u' = trim s /\ su = short_url c
    /\ isValidUrl (trim s) = true
    /\ ((st = 200
         /\ db_of (serve (PostCreate v) env d) = d
         /\ exists e, find (matches (ByOriginalUrl (trim s))) (urls d) = Some e
                      /\ shortCode e = c)
        \/ (st = 201
            /\ find (matches (ByOriginalUrl (trim s))) (urls d) = None
            /\ c = encodeBase62 (next_value d)
            /\ db_of (serve (PostCreate v) env d) =
               {| urls := urls d ++ [ {| _id := fresh_id (urls d); originalUrl := trim s;
                                         shortCode := c; clicks := 0;
                                         createdAt := now env |} ];
                  counter := Some (next_value d) |})).
Proof.
  destruct v as [s|]; unfold_handlers.
  - split_cases; unfold res_json, res_status; intros H; try discriminate H;
      injection H as <- <- <- <- <-;
      rewrite ?trim_idempotent, ?(trim_alnum _ (encode_alnum _)) in *;
      match goal with
      | H : negb _ = false |- _ => apply negb_false_iff in H
      end;
      exists (String a s0); repeat split; auto;
      solve [left; repeat split; eauto | right; repeat split; auto].
  - unfold res_json, res_status. cbn. intros H. discriminate H.
Qed.

(** ** Records are kept *)

Lemma fresh_id_above (l : list UrlDoc) (r : UrlDoc) :
  In r l -> (_id r < fresh_id l)%nat.
Proof.
  unfold fresh_id. induction l as [|x l IH]; cbn [fold_right]; intros Hin; [destruct Hin|].
  destruct Hin as [<-|Hin]; [lia|]. specialize (IH Hin). lia.
Qed.

Lemma inc_clicks_ids (id : nat) (l : list UrlDoc) :
  map _id (inc_clicks id l) = map _id l.
Proof.
  induction l as [|d l IH]; cbn [inc_clicks map]; [reflexivity|].
  destruct (Nat.eqb (_id d) id); cbn [map _id]; congruence.
Qed.

Lemma inc_clicks_urls (id : nat) (l : list UrlDoc) :
  map originalUrl (inc_clicks id l) = map originalUrl l.
Proof.
  induction l as [|d l IH]; cbn [inc_clicks map]; [reflexivity|].
  destruct (Nat.eqb (_id d) id); cbn [map originalUrl]; congruence.
Qed.

Lemma same_record_refl (r : UrlDoc) : same_record r r.
Proof. unfold same_record. repeat split; reflexivity. Qed.

Lemma same_record_trans (a b c : UrlDoc) :
  same_record a b -> same_record b c -> same_record a c.
Proof.
  unfold same_record. intros (?&?&?&?&?) (?&?&?&?&?).
  repeat split; try congruence. lia.
Qed.

Lemma inc_clicks_keeps (id : nat) (r : UrlDoc) (l : list UrlDoc) :
  In r l -> exists r', In r' (inc_clicks id l) /\ same_record r r'.
Proof.
  induction l as [|d l IH]; cbn [inc_clicks]; [intros []|].
  intros [->|Hin].
  - destruct (Nat.eqb (_id r) id).
    + eexists. split; [left; reflexivity|].
      unfold same_record. cbn. repeat split; lia.
    + exists r. split; [left; reflexivity | apply same_record_refl].
  - destruct (Nat.eqb (_id d) id).
    + exists r. split; [right; exact Hin | apply same_record_refl].
    + destruct (IH Hin) as (r' & H' & Hs). exists r'. split; [right; exact H' | exact Hs].
Qed.

Lemma find_by_url_none (u : string) (l : list UrlDoc) :
  find (matches (ByOriginalUrl u)) l = None -> ~ In u (map originalUrl l).
Proof.
  intros Hnone Hin. apply in_map_iff in Hin. destruct Hin as (r & E & Hin).
  pose proof (find_none _ _ Hnone r Hin) as Hm. cbn in Hm.
  rewrite E, String.eqb_refl in Hm. discriminate.
Qed.

Lemma serve_keeps (req : Request) (env : Env) (d : Db) (r : UrlDoc) :
  In r (urls d) ->
  exists r', In r' (urls (db_of (serve req env d))) /\ same_record r r'.
Proof.
  intros Hin.
  destruct (serve_effect req env d)
    as [E | [(s & _ & _ & _ & _ & E & _) | (code & r0 & _ & _ & _ & E & _)]];
    rewrite E.
  - exists r. split; [exact Hin | apply same_record_refl].
  - exists r. split; [apply in_or_app; left; exact Hin | apply same_record_refl].
  - apply inc_clicks_keeps, Hin.
Qed.

Lemma serve_well_kept (req : Request) (env : Env) (d : Db) :
  well_kept d -> well_kept (db_of (serve req env d)).
Proof.
  intros (Hids & Hurls & Hvalid). unfold well_kept.
  destruct (serve_effect req env d)
    as [E | [(s & _ & Hv & Hnone & _ & E & _) | (code & r0 & _ & _ & _ & E & _)]];
    rewrite E.
  - auto.
  - rewrite !map_app. cbn [map _id originalUrl]. repeat split.
    + apply NoDup_app; [exact Hids | repeat constructor; intros [] |].
      intros a Ha [<-|[]]. apply in_map_iff in Ha. destruct Ha as (x & Ex & Hx).
      pose proof (fresh_id_above _ _ Hx). lia.
    + apply NoDup_app; [exact Hurls | repeat constructor; intros [] |].
      intros a Ha [<-|[]]. exact (find_by_url_none _ _ Hnone Ha).
    + apply in_app_or in H. destruct H as [H | [<- | []]]; [apply Hvalid, H | exact Hv].
    + apply in_app_or in H. destruct H as [H | [<- | []]];
        [apply Hvalid, H | apply trim_idempotent].
  - rewrite inc_clicks_ids, inc_clicks_urls. repeat split; auto.
    + destruct (inc_clicks_In _ _ _ H) as (x & Hx & Eu & _). rewrite <- Eu. apply Hvalid, Hx.
    + destruct (inc_clicks_In _ _ _ H) as (x & Hx & Eu & _). rewrite <- Eu. apply Hvalid, Hx.
Qed.

Lemma run_well_kept (h : list (Request * Env)) : forall d,
  well_kept d -> well_kept (run h d).
Proof.
  induction h as [|[req env] h IH]; intros d Hd; cbn [run]; [exact Hd|].
  apply IH, serve_well_kept, Hd.
Qed.

Lemma empty_store_well_kept : well_kept empty_store.
Proof. repeat split; try constructor; destruct H. Qed.

(** Over any history every record is kept, up to its clicks. *)
Lemma run_keeps (h : list (Request * Env)) : forall (d : Db) (r : UrlDoc),
  In r (urls d) ->
  exists r', In r' (urls (run h d)) /\ same_record r r'.
Proof.
  induction h as [|[req env] h IH]; intros d r Hin; cbn [run].
  - exists r. split; [exact Hin | apply same_record_refl].
  - destruct (serve_keeps req env d r Hin) as (r1 & H1 & S1).
    destruct (IH _ r1 H1) as (r2 & H2 & S2).
    exists r2. split; [exact H2 | exact (same_record_trans _ _ _ S1 S2)].
Qed.

(** X4. No request deletes or rewrites a record: over any history, from
    any store, every record is still there with the same id, original URL,
    short code and creation time, and a click count that has not gone
    down. *)
Theorem records_persist (h : list (Request * Env)) (d : Db) (r : UrlDoc) :
  In r (urls d) ->
  exists r', In r' (urls (run h d)) /\ same_record r r'.
Proof.
  apply run_keeps.
Qed.

(** X5. In every store reached from the empty one, the stored original
    URLs are pairwise different, the document ids are pairwise different,
    and every stored URL is a trimmed string that [isValidUrl] accepts. *)
Theorem stored_urls_valid_and_distinct (h : list (Request * Env)) :
  NoDup (map originalUrl (urls (run h empty_store)))
  /\ NoDup (map _id (urls (run h empty_store)))
  /\ forall r, In r (urls (run h empty_store)) ->
       isValidUrl (originalUrl r) = true /\ trim (originalUrl r) = originalUrl r.
Proof.
  destruct (run_well_kept h empty_store empty_store_well_kept) as (Hids & Hurls & Hvalid).
  auto.
Qed.

(** ** The info handler and click accounting *)

Lemma info_malformed (code : string) (env : Env) (d : Db) :
  isValidShortCode code = false ->
  serve (GetInfo code) env d =
  (Some (res_json 400 (JsonError "Invalid short code format")), d, []).
Proof.
  intros Hv. unfold_handlers. rewrite Hv. cbn [negb]. rewrite orb_true_r. reflexivity.
Qed.

Lemma well_formed_nonempty (code : string) :
  isValidShortCode code = true -> String.eqb code "" = false.
Proof. destruct code; [discriminate | reflexivity]. Qed.

Lemma info_unavailable (code : string) (env : Env) (d : Db) :
  isValidShortCode code = true -> avail env 0%nat = false ->
  serve (GetInfo code) env d =
  (Some (res_json 500 (JsonError "Internal server error")), d,
   [UrlFindOne (ByShortCode code)]).
Proof.
  intros Hv H0. unfold_handlers. rewrite Hv, (well_formed_nonempty code Hv).
  cbn [negb orb]. reduce. rewrite H0. reflexivity.
Qed.

Lemma info_missing (code : string) (env : Env) (d : Db) :
  isValidShortCode code = true -> avail env 0%nat = true ->
  find (matches (ByShortCode code)) (urls d) = None ->
  serve (GetInfo code) env d =
  (Some (res_json 404 (JsonError "Short URL not found")), d,
   [UrlFindOne (ByShortCode code)]).
Proof.
  intros Hv H0 Hfind. unfold_handlers. rewrite Hv, (well_formed_nonempty code Hv).
  cbn [negb orb]. reduce. rewrite H0, Hfind. reflexivity.
Qed.

Lemma info_found (code : string) (env : Env) (d : Db) (r : UrlDoc) :
  isValidShortCode code = true -> avail env 0%nat = true ->
  find (matches (ByShortCode code)) (urls d) = Some r ->
  serve (GetInfo code) env d =
  (Some (res_json 200
           (JsonInfo (originalUrl r) (shortCode r) (clicks r) (createdAt r))),
   d, [UrlFindOne (ByShortCode code)]).
Proof.
  intros Hv H0 Hfind. unfold_handlers. rewrite Hv, (well_formed_nonempty code Hv).
  cbn [negb orb]. reduce. rewrite H0, Hfind. reflexivity.
Qed.

(** X6. The info handler only reads: whatever the code and the backend's
    availability, the database is unchanged (looking a code up is not a
    click), at most one call is issued and it is the lookup of that code;
    a malformed code is answered 400 without any call. *)
Theorem info_only_reads (code : string) (env : Env) (d : Db) :
  db_of (serve (GetInfo code) env d) = d
  /\ (calls_of (serve (GetInfo code) env d) = []
      \/ calls_of (serve (GetInfo code) env d) = [UrlFindOne (ByShortCode code)])
  /\ (isValidShortCode code = false ->
      serve (GetInfo code) env d =
      (Some (res_json 400 (JsonError "Invalid short code format")), d, [])).
Proof.
  split; [|split; [|apply info_malformed]].
  - destruct (isValidShortCode code) eqn:Hv; [|rewrite info_malformed; auto].
    destruct (avail env 0%nat) eqn:H0; [|rewrite info_unavailable; auto].
    destruct (find (matches (ByShortCode code)) (urls d)) as [r|] eqn:Hf.
    + rewrite (info_found code env d r); auto.
    + rewrite info_missing; auto.
  - destruct (isValidShortCode code) eqn:Hv; [|rewrite info_malformed; auto].
    destruct (avail env 0%nat) eqn:H0; [|rewrite info_unavailable; auto].
    destruct (find (matches (ByShortCode code)) (urls d)) as [r|] eqn:Hf.
    + rewrite (info_found code env d r); auto.
    + rewrite info_missing; auto.
Qed.

Lemma total_clicks_cons (x : UrlDoc) (l : list UrlDoc) :
  total_clicks (x :: l) = clicks x + total_clicks l.
Proof. reflexivity. Qed.

Lemma total_clicks_inc (r : UrlDoc) (l : list UrlDoc) :
  In r l -> total_clicks (inc_clicks (_id r) l) = total_clicks l + 1.
Proof.
  induction l as [|x l IH]; cbn [inc_clicks]; [intros []|].
  intros Hin. destruct (Nat.eqb_spec (_id x) (_id r)) as [E|N].
  - rewrite !total_clicks_cons. cbn [clicks]. lia.
  - destruct Hin as [->|Hin]; [congruence|].
    rewrite !total_clicks_cons, (IH Hin). lia.
Qed.

(** X7. A redirect request changes nothing but click counts, and counts
    at most one click: when it answers with a redirect and the click update
    is carried out, the clicks of all records add up to one more than
    before; in every other case the database is unchanged. *)
Theorem redirect_counts_one_click (code : string) (env : Env) (d : Db) :
  let x := serve (GetRedirect code) env d in
  counter (db_of x) = counter d
  /\ map _id (urls (db_of x)) = map _id (urls d)
  /\ map shortCode (urls (db_of x)) = map shortCode (urls d)
  /\ map originalUrl (urls (db_of x)) = map originalUrl (urls d)
  /\ match option_map body (response_of x) with
     | Some (Location _) =>
         if avail env 1%nat
         then total_clicks (urls (db_of x)) = total_clicks (urls d) + 1
         else db_of x = d
     | _ => db_of x = d
     end.
Proof.
  intros x. subst x.
  destruct (reserved_path code) eqn:Hr; [rewrite redirect_reserved; cbn; auto|].
  destruct (isValidShortCode code) eqn:Hv; [|rewrite redirect_malformed; cbn; auto].
  destruct (avail env 0%nat) eqn:H0; [|rewrite redirect_unavailable; cbn; auto].
  destruct (find (matches (ByShortCode code)) (urls d)) as [r|] eqn:Hf;
    [|rewrite redirect_missing; cbn; auto].
  rewrite (redirect_found code env d r Hv H0 Hf).
  cbn [db_of response_of fst snd option_map body].
  destruct (avail env 1%nat); cbn [urls counter]; [|auto].
  rewrite inc_clicks_ids, inc_clicks_codes, inc_clicks_urls.
  repeat split. apply total_clicks_inc. apply find_some in Hf. apply Hf.
Qed.

Lemma inc_clicks_at (r : UrlDoc) (l : list UrlDoc) :
  NoDup (map _id l) -> In r l ->
  In (set_clicks r (clicks r + 1)) (inc_clicks (_id r) l).
Proof.
  induction l as [|x l IH]; cbn [inc_clicks map]; intros Hnd Hin; [destruct Hin|].
  apply NoDup_cons_iff in Hnd. destruct Hnd as [Hx Hnd].
  destruct (Nat.eqb_spec (_id x) (_id r)) as [E|N].
  - destruct Hin as [->|Hin]; [left; reflexivity|].
    exfalso. apply Hx. rewrite E. apply in_map, Hin.
  - destruct Hin as [->|Hin]; [congruence|]. right. apply IH; assumption.
Qed.

(** One answered redirect, with its click update carried out, in a store
    with distinct ids and codes. *)
Lemma redirect_clicks_record (env : Env) (d : Db) (r : UrlDoc) :
  NoDup (map _id (urls d)) -> NoDup (map shortCode (urls d)) ->
  In r (urls d) -> isValidShortCode (shortCode r) = true ->
  avail env 0%nat = true -> avail env 1%nat = true ->
  let d' := db_of (serve (GetRedirect (shortCode r)) env d) in
  NoDup (map _id (urls d')) /\ NoDup (map shortCode (urls d'))
  /\ In (set_clicks r (clicks r + 1)) (urls d').
Proof.
  intros Hids Hcodes Hin Hv H0 H1 d'. subst d'.
  rewrite (redirect_found (shortCode r) env d r Hv H0 (find_by_code_unique _ _ Hcodes Hin)).
  rewrite H1. cbn [db_of fst snd urls].
  rewrite inc_clicks_ids, inc_clicks_codes.
  repeat split; auto. apply inc_clicks_at; assumption.
Qed.

Lemma redirects_click_record (envs : list Env) : forall (d : Db) (r : UrlDoc),
  NoDup (map _id (urls d)) -> NoDup (map shortCode (urls d)) ->
  In r (urls d) -> isValidShortCode (shortCode r) = true ->
  Forall (fun e => avail e 0%nat = true /\ avail e 1%nat = true) envs ->
  let d' := run (map (fun e => (GetRedirect (shortCode r), e)) envs) d in
  NoDup (map shortCode (urls d'))
  /\ In (set_clicks r (clicks r + Z.of_nat (length envs))) (urls d').
Proof.
  induction envs as [|e envs IH]; intros d r Hids Hcodes Hin Hv Hall; cbn [map run length].
  - split; [exact Hcodes|]. replace (set_clicks r (clicks r + Z.of_nat 0)) with r; [exact Hin|].
    destruct r; unfold set_clicks; cbn. f_equal. lia.
  - apply Forall_cons_iff in Hall. destruct Hall as [[H0 H1] Hall].
    destruct (redirect_clicks_record e d r Hids Hcodes Hin Hv H0 H1) as (Hids' & Hcodes' & Hin').
    specialize (IH _ (set_clicks r (clicks r + 1)) Hids' Hcodes' Hin' Hv Hall).
    cbn [set_clicks shortCode clicks] in IH.
    replace (clicks r + Z.of_nat (S (length envs)))
      with (clicks r + 1 + Z.of_nat (length envs)) by lia.
    exact IH.
Qed.

(** X8. Clicks are counted one by one: in a store reached from the empty
    one, after [n] redirect requests for the code of a stored record, each
    answered and with its click update carried out, the record's click
    count is [n] higher, and the info handler reports the record with that
    count. *)
Theorem clicks_are_counted (h : list (Request * Env)) (r : UrlDoc)
    (envs : list Env) (env : Env) :
  In r (urls (run h empty_store)) ->
  isValidShortCode (shortCode r) = true ->
  Forall (fun e => avail e 0%nat = true /\ avail e 1%nat = true) envs ->
  avail env 0%nat = true ->
  let d' := run (map (fun e => (GetRedirect (shortCode r), e)) envs) (run h empty_store) in
  find (matches (ByShortCode (shortCode r))) (urls d')
  = Some (set_clicks r (clicks r + Z.of_nat (length envs)))
  /\ response_of (serve (GetInfo (shortCode r)) env d')
     = Some (res_json 200
               (JsonInfo (originalUrl r) (shortCode r)
                  (clicks r + Z.of_nat (length envs)) (createdAt r))).
Proof.
  intros Hin Hv Hall H0 d'.
  destruct (run_well_kept h empty_store empty_store_well_kept) as (Hids & _).
  assert (Hcodes : NoDup (map shortCode (urls (run h empty_store)))).
  { apply run_codes_unique. constructor. }
  destruct (redirects_click_record envs _ r Hids Hcodes Hin Hv Hall) as (Hcodes' & Hin').
  fold d' in Hcodes', Hin'.
  assert (Hf : find (matches (ByShortCode (shortCode r))) (urls d')
               = Some (set_clicks r (clicks r + Z.of_nat (length envs)))).
  { exact (find_by_code_unique _ _ Hcodes' Hin'). }
  split; [exact Hf|].
  rewrite (info_found (shortCode r) env d' _ Hv H0 Hf). reflexivity.
Qed.

(** ** Shortening and resolving together *)

Lemma unique_url_record (l : list UrlDoc) (a b : UrlDoc) :
  NoDup (map originalUrl l) -> In a l -> In b l ->
  originalUrl a = originalUrl b -> a = b.
Proof.
  induction l as [|x l IH]; cbn [map]; intros Hnd Ha Hb E; [destruct Ha|].
  apply NoDup_cons_iff in Hnd. destruct Hnd as [Hx Hnd].
  destruct Ha as [<-|Ha], Hb as [<-|Hb]; auto.
  - exfalso. apply Hx. rewrite E. apply in_map, Hb.
  - exfalso. apply Hx. rewrite <- E. apply in_map, Ha.
Qed.

(** The record a success answer of the create handler names. *)
Lemma post_success_record (v : JsValue) (env : Env) (d : Db)
    (st : Z) (su c u' m : string) :
  response_of (serve (PostCreate v) env d) = Some (res_json st (JsonShort su c u' m)) ->
  exists r, In r (urls (db_of (serve (PostCreate v) env d)))
            /\ shortCode r = c /\ originalUrl r = u'.
Proof.
  intros H. destruct (post_success v env d st su c u' m H)
    as (s & -> & -> & _ & _ & [(_ & -> & e & Hf & Ec) | (_ & _ & _ & ->)]).
  - apply find_some in Hf. destruct Hf as [Hin Hm]. cbn in Hm.
    apply String.eqb_eq in Hm. exists e. auto.
  - eexists. split; [cbn [urls]; apply in_or_app; right; left; reflexivity|].
    split; reflexivity.
Qed.

Lemma reached_after (h1 h2 : list (Request * Env)) (req : Request) (env : Env) :
  run h2 (db_of (serve req env (run h1 empty_store)))
  = run (h1 ++ (req, env) :: h2) empty_store.
Proof. rewrite run_app. reflexivity. Qed.



(** X9. Shorten, then resolve: when a create request is answered with
    success (201 or 200) in a store reached from the empty one, then after
    any further requests the code of the answer, if it passes the format
    check, redirects to the URL of the answer, which is the submitted URL
    trimmed, as Express writes it into the [Location]; and the info
    handler reports that URL for the code. *)
Theorem shorten_then_resolve (h1 h2 : list (Request * Env)) (s : string)
    (e1 env : Env) (st : Z) (su c u' m : string) :
  response_of (serve (PostCreate (JsString s)) e1 (run h1 empty_store))
  = Some (res_json st (JsonShort su c u' m)) ->
  isValidShortCode c = true ->
  avail env 0%nat = true ->
  let d := run h2 (db_of (serve (PostCreate (JsString s)) e1 (run h1 empty_store))) in
  u' = trim s
  /\ option_map body (response_of (serve (GetRedirect c) env d))
     = Some (Location (encodeUrl (trim s)))
  /\ exists k created,
       response_of (serve (GetInfo c) env d)
       = Some (res_json 200 (JsonInfo (trim s) c k created)).
Proof.
  intros Hresp Hv H0 d.
  destruct (post_success _ _ _ _ _ _ _ _ Hresp) as (s' & Es & Eu & _).
  injection Es as <-. split; [exact Eu|]. subst u'.
  destruct (post_success_record _ _ _ _ _ _ _ _ Hresp) as (r & Hin & Ec & Eo).
  destruct (run_keeps h2 _ r Hin) as (r' & Hin' & _ & Eo' & Ec' & _).
  fold d in Hin'.
  assert (Hnd : NoDup (map shortCode (urls d))).
  { unfold d. rewrite reached_after. apply run_codes_unique. constructor. }
  assert (Hf : find (matches (ByShortCode c)) (urls d) = Some r').
  { rewrite <- Ec, Ec'. apply find_by_code_unique; assumption. }
  split.
  - rewrite (redirect_found c env d r' Hv H0 Hf). cbn. congruence.
  - exists (clicks r'), (createdAt r').
    rewrite (info_found c env d r' Hv H0 Hf). cbn [response_of fst].
    rewrite <- Eo', Eo, <- Ec', Ec. reflexivity.
Qed.

(** X10. One code per URL, one URL per code: two create requests answered
    with success, with any requests between them, in a history from the
    empty store, return the same code exactly when the URLs of their
    answers (the submitted URLs, trimmed) are the same. *)
Theorem same_code_iff_same_url (h1 h2 : list (Request * Env)) (v1 v2 : JsValue)
    (e1 e2 : Env) (st1 st2 : Z) (su1 c1 u1 m1 su2 c2 u2 m2 : string) :
  let first := serve (PostCreate v1) e1 (run h1 empty_store) in
  let second := serve (PostCreate v2) e2 (run h2 (db_of first)) in
  response_of first = Some (res_json st1 (JsonShort su1 c1 u1 m1)) ->
  response_of second = Some (res_json st2 (JsonShort su2 c2 u2 m2)) ->
  (c1 = c2 <-> u1 = u2).
Proof.
  intros first second Hr1 Hr2.
  destruct (post_success_record _ _ _ _ _ _ _ _ Hr1) as (r1 & Hin1 & Ec1 & Eo1).
  destruct (post_success_record _ _ _ _ _ _ _ _ Hr2) as (r2 & Hin2 & Ec2 & Eo2).
  fold first in Hin1. fold second in Hin2.
  destruct (run_keeps (h2 ++ [(PostCreate v2, e2)]) _ r1 Hin1)
    as (r1' & Hin1' & _ & Eo1' & Ec1' & _).
  rewrite run_app in Hin1'. cbn [run] in Hin1'. fold second in Hin1'.
  assert (Hreach : db_of second
                   = run (h1 ++ (PostCreate v1, e1) :: h2 ++ [(PostCreate v2, e2)])
                       empty_store).
  { rewrite run_app. cbn [run]. rewrite run_app. reflexivity. }
  assert (Hcodes : NoDup (map shortCode (urls (db_of second)))).
  { rewrite Hreach. apply run_codes_unique. constructor. }
  assert (Hurls : NoDup (map originalUrl (urls (db_of second)))).
  { rewrite Hreach. apply (run_well_kept _ _ empty_store_well_kept). }
  split; intros E.
  - assert (r1' = r2) by (eapply unique_code_record; eauto; congruence).
    congruence.
  - assert (r1' = r2) by (eapply unique_url_record; eauto; congruence).
    congruence.
Qed.

(** X11. The answer of the create handler tells what happened to the
    store: a success answer names a stored record with its code and URL;
    with status 201 that record is the one new record (no clicks, created
    now) and the counter has advanced; with status 200 the database is
    unchanged; any other answer leaves the records as they were. *)
Theorem create_answer_matches_store (v : JsValue) (env : Env) (d : Db) :
  let x := serve (PostCreate v) env d in
  match response_of x with
  | Some {| statusCode := st; body := SendJson (JsonShort su c u m) |} =>
      su = short_url c
      /\ (st = 200 \/ st = 201)
      /\ (st = 200 ->
          db_of x = d
          /\ exists r, In r (urls d) /\ shortCode r = c /\ originalUrl r = u)
      /\ (st = 201 ->
          db_of x =
          {| urls := urls d ++ [ {| _id := fresh_id (urls d); originalUrl := u;
                                    shortCode := c; clicks := 0;
                                    createdAt := now env |} ];
             counter := Some (next_value d) |})
  | _ => urls (db_of x) = urls d
  end.
Proof.
  intros x. destruct (response_of x) as [[st [j|loc]]|] eqn:Hresp.
  - destruct j as [err|err code|su c u m|a b k t].
    4: {
      destruct (serve_effect (PostCreate v) env d)
        as [E | [(s & _ & _ & _ & _ & _ & Hr) | (code & r0 & Hreq & _)]];
        [exact E | | discriminate Hreq].
      fold x in Hr. rewrite Hresp in Hr. discriminate Hr. }
    3: {
      destruct (post_success v env d st su c u m Hresp)
        as (s & -> & -> & -> & _ & [(-> & Hd & e & Hf & Ec) | (-> & _ & -> & Hd)]).
      - split; [reflexivity|]. split; [auto|]. split; [|discriminate].
        intros _. split; [exact Hd|].
        apply find_some in Hf. destruct Hf as [Hin Hm]. cbn in Hm.
        apply String.eqb_eq in Hm. exists e. auto.
      - split; [reflexivity|]. split; [auto|]. split; [discriminate|].
        intros _. exact Hd. }
    all: destruct (serve_effect (PostCreate v) env d)
        as [E | [(s & _ & _ & _ & _ & _ & Hr) | (code' & r0 & Hreq & _)]];
        [exact E | | discriminate Hreq];
      fold x in Hr; rewrite Hresp in Hr; discriminate Hr.
  - destruct (serve_effect (PostCreate v) env d)
      as [E | [(s & _ & _ & _ & _ & _ & Hr) | (code & r0 & Hreq & _)]];
      [exact E | | discriminate Hreq].
    fold x in Hr. rewrite Hresp in Hr. discriminate Hr.
  - unfold x, serve, response_of in Hresp.
    destruct (post_create_longurl v env _). discriminate Hresp.
Qed.

(** ** Start-up, outages and the counter *)

Lemma startup_initialises (env : Env) (d : Db) :
  counter d = None -> avail env 0%nat = true -> avail env 1%nat = true ->
  db_of (serve Startup env d) = {| urls := urls d; counter := Some 100000 |}.
Proof.
  intros Hnone H0 H1. unfold_handlers. reduce.
  rewrite H0. reduce. rewrite Hnone. reduce. rewrite H1, Hnone. reflexivity.
Qed.

Lemma startup_rejected (env : Env) (d : Db) :
  avail env 0%nat = false -> db_of (serve Startup env d) = d.
Proof. intros H0. unfold_handlers. reduce. rewrite H0. reflexivity. Qed.

Lemma startup_keeps_counter (env : Env) (d : Db) (v : Z) :
  counter d = Some v -> db_of (serve Startup env d) = d.
Proof.
  intros Hv. unfold_handlers. reduce.
  destruct (avail env 0%nat); reduce; [rewrite Hv|]; reflexivity.
Qed.

Lemma inc_clicks_length (id : nat) (l : list UrlDoc) :
  length (inc_clicks id l) = length l.
Proof. rewrite <- (length_map _id), inc_clicks_ids. apply length_map. Qed.

Lemma change_offset_kept (req : Request) (d d' : Db) :
  change req d d' -> offset_kept d -> offset_kept d'.
Proof.
  intros Hch (v & Hv & Hlen & Hcodes).
  assert (Hnext : next_value d = v + 1) by (unfold next_value; rewrite Hv; reflexivity).
  destruct Hch as [ | _ Hnone | s _ | s id created _ _ _ _ _ | code id _ ];
    unfold offset_kept; cbn [urls counter].
  - exists v. auto.
  - congruence.
  - exists (v + 1). rewrite Hnext. repeat split; [lia|].
    intros r Hin. destruct (Hcodes r Hin) as (n & Hn & E). exists n. split; [lia | exact E].
  - exists (v + 1). rewrite Hnext. repeat split.
    + rewrite length_app. cbn [length]. lia.
    + intros r Hin. apply in_app_or in Hin. destruct Hin as [Hin | [<- | []]].
      * destruct (Hcodes r Hin) as (n & Hn & E). exists n. split; [lia | exact E].
      * exists (v + 1). cbn [shortCode]. split; [lia | reflexivity].
  - exists v. rewrite inc_clicks_length. repeat split; auto.
    intros r Hin. destruct (inc_clicks_In id r _ Hin) as (r0 & H0 & _ & Ec).
    rewrite <- Ec. apply Hcodes, H0.
Qed.

Lemma run_offset_kept (h : list (Request * Env)) : forall d,
  offset_kept d -> offset_kept (run h d).
Proof.
  induction h as [|[req env] h IH]; intros d Hd; cbn [run]; [exact Hd|].
  apply IH. eapply change_offset_kept; [apply serve_change | exact Hd].
Qed.

Lemma encode_length_lower (n : Z) (k : nat) :
  62 ^ Z.of_nat k <= n -> (k + 1 <= String.length (encodeBase62 n))%nat.
Proof.
  intros Hk.
  assert (Hpos : 0 < n).
  { pose proof (Z.pow_pos_nonneg 62 (Z.of_nat k)). lia. }
  unfold encodeBase62. destruct (Z.eqb_spec n 0); [lia|].
  pose proof (encode_loop_length_lower (bit_length n) k n "" Hk
                (bit_length_spec n Hpos)) as H.
  cbn [String.length] in H. lia.
Qed.

(** X12. When the server's start-up on the empty store is answered, then
    after any requests the counter is at least 100000 plus the number of
    records, and every stored code encodes an integer above 100000 that
    the counter has reached, so it has at least three characters. *)
Theorem startup_offset_is_kept (e0 : Env) (h : list (Request * Env)) :
  avail e0 0%nat = true -> avail e0 1%nat = true ->
  let d := run ((Startup, e0) :: h) empty_store in
  exists v,
    counter d = Some v
    /\ 100000 + Z.of_nat (length (urls d)) <= v
    /\ forall r, In r (urls d) ->
         (exists n, 100000 < n <= v /\ shortCode r = encodeBase62 n)
         /\ (3 <= String.length (shortCode r))%nat.
Proof.
  intros H0 H1 d.
  assert (Hk : offset_kept d).
  { unfold d. cbn [run]. apply run_offset_kept.
    rewrite (startup_initialises e0 empty_store eq_refl H0 H1).
    exists 100000. cbn. repeat split; [lia | intros r []]. }
  destruct Hk as (v & Hv & Hlen & Hcodes). exists v. repeat split; auto.
  destruct (Hcodes r H) as (n & Hn & ->).
  apply (encode_length_lower n 2). change (62 ^ Z.of_nat 2) with 3844. lia.
Qed.

(** X13. A start-up whose counter lookup is rejected is swallowed: the
    store stays without a counter, the next create request makes the
    upsert insert it, so the first code is ["1"] and not one above the
    starting value, and a later start-up leaves that counter as it is. *)
Theorem rejected_startup_loses_offset (s : string) (e0 e1 e2 : Env) :
  avail e0 0%nat = false ->
  isValidUrl (trim s) = true ->
  avail e1 0%nat = true -> avail e1 1%nat = true -> avail e1 2%nat = true ->
  let d0 := db_of (serve Startup e0 empty_store) in
  let created :=
    {| urls := [ {| _id := 1; originalUrl := trim s; shortCode := "1";
                    clicks := 0; createdAt := now e1 |} ];
       counter := Some 1 |} in
  d0 = empty_store
  /\ serve (PostCreate (JsString s)) e1 d0 =
     (Some (res_json 201 (JsonShort (short_url "1") "1" (trim s)
                            "Short URL created successfully")),
      created,
      [UrlFindOne (ByOriginalUrl (trim s)); CounterInc; UrlInsert (trim s) "1"])
  /\ db_of (serve Startup e2 created) = created.
Proof.
  intros H0 Hvalid H10 H11 H12 d0 created.
  assert (E0 : d0 = empty_store) by (apply startup_rejected, H0).
  split; [exact E0|]. split.
  - rewrite E0.
    rewrite (post_created s e1 empty_store Hvalid H10 H11 H12 eq_refl);
      [reflexivity | cbn; lia | reflexivity].
  - apply (startup_keeps_counter e2 created 1). reflexivity.
Qed.

Lemma post_insert_unavailable (s : string) (env : Env) (d : Db) :
  isValidUrl (trim s) = true ->
  avail env 0%nat = true -> avail env 1%nat = true -> avail env 2%nat = false ->
  find (matches (ByOriginalUrl (trim s))) (urls d) = None ->
  1 <= next_value d ->
  serve (PostCreate (JsString s)) env d =
  (Some (res_json 500 (JsonError "Internal server error. Please try again.")),
   {| urls := urls d; counter := Some (next_value d) |},
   [UrlFindOne (ByOriginalUrl (trim s)); CounterInc;
    UrlInsert (trim s) (encodeBase62 (next_value d))]).
Proof.
  intros Hvalid H0 H1 H2 Hfind Hpos.
  pose proof (valid_trim_nonempty s Hvalid) as Hs.
  pose proof (valid_nonempty _ Hvalid) as Ht. apply String.eqb_neq in Ht.
  pose proof (encode_nonempty _ Hpos) as Hc. apply String.eqb_neq in Hc.
  destruct s as [|c s]; [congruence|].
  unfold_handlers. rewrite Hvalid. cbn [negb]. reduce.
  rewrite H0, Hfind. reduce. rewrite H1. reduce.
  rewrite trim_idempotent, (trim_alnum _ (encode_alnum _)).
  rewrite Ht, Hc. cbn [orb]. reduce. rewrite H2. reflexivity.
Qed.

(** X14. An allocated value is never handed out again: when the insert of
    a new URL is not answered by the backend, the request fails with 500
    and no record, but the counter keeps the increment; shortening the
    same URL again then creates it under the code of the following
    integer. *)
Theorem rejected_insert_leaves_gap (h : list (Request * Env)) (s : string) (e1 e2 : Env) :
  isValidUrl (trim s) = true ->
  find (matches (ByOriginalUrl (trim s))) (urls (run h empty_store)) = None ->
  avail e1 0%nat = true -> avail e1 1%nat = true -> avail e1 2%nat = false ->
  avail e2 0%nat = true -> avail e2 1%nat = true -> avail e2 2%nat = true ->
  let d := run h empty_store in
  let failed := serve (PostCreate (JsString s)) e1 d in
  let retried := serve (PostCreate (JsString s)) e2 (db_of failed) in
  response_of failed
  = Some (res_json 500 (JsonError "Internal server error. Please try again."))
  /\ db_of failed = {| urls := urls d; counter := Some (next_value d) |}
  /\ response_of retried
     = Some (res_json 201
               (JsonShort (short_url (encodeBase62 (next_value d + 1)))
                  (encodeBase62 (next_value d + 1)) (trim s)
                  "Short URL created successfully")).
Proof.
  intros Hvalid Hfind H10 H11 H12 H20 H21 H22 d failed retried.
  assert (Ha : allocated d) by (apply run_allocated, empty_store_allocated).
  pose proof (allocated_next_pos d Ha) as Hpos.
  assert (Ef : failed =
               (Some (res_json 500 (JsonError "Internal server error. Please try again.")),
                {| urls := urls d; counter := Some (next_value d) |},
                [UrlFindOne (ByOriginalUrl (trim s)); CounterInc;
                 UrlInsert (trim s) (encodeBase62 (next_value d))])).
  { apply post_insert_unavailable; assumption. }
  subst retried. rewrite Ef. cbn [response_of db_of fst snd].
  split; [reflexivity|]. split; [reflexivity|].
  assert (Ha' : allocated {| urls := urls d; counter := Some (next_value d) |}).
  { change (allocated (db_of (Some (res_json 500
               (JsonError "Internal server error. Please try again.")),
               {| urls := urls d; counter := Some (next_value d) |},
               [UrlFindOne (ByOriginalUrl (trim s)); CounterInc;
                UrlInsert (trim s) (encodeBase62 (next_value d))]))).
    rewrite <- Ef. eapply change_allocated; [apply serve_change | exact Ha]. }
  rewrite (post_created s e2 {| urls := urls d; counter := Some (next_value d) |}
             Hvalid H20 H21 H22 Hfind
             (allocated_next_pos _ Ha') (allocated_fresh _ Ha')).
  reflexivity.
Qed.

(** X15. While the backend does not answer, nothing is written and nothing
    succeeds: if the first database call of a request is rejected, the
    database is unchanged and the answer, if any, has status 400, 404 or
    500. *)
Theorem outage_changes_nothing (req : Request) (env : Env) (d : Db) :
  avail env 0%nat = false ->
  db_of (serve req env d) = d
  /\ forall resp, response_of (serve req env d) = Some resp ->
       statusCode resp = 400 \/ statusCode resp = 404 \/ statusCode resp = 500.
Proof.
  intros H0.
  destruct req as [|[s|]|code|code]; unfold_handlers; reduce; rewrite ?H0;
    split_cases; try congruence;
    (split; [reflexivity | intros resp E; try discriminate E; injection E as <-; cbn; auto]).
Qed.

(** ** The handlers' guards *)

Lemma reserved_not_code (code : string) :
  reserved_path code = true -> code = "" \/ all_alnum code = false.
Proof.
  unfold reserved_path. intros H.
  apply orb_true_iff in H. destruct H as [H|H]; [apply orb_true_iff in H; destruct H as [H|H]|].
  - apply String.eqb_eq in H. auto.
  - right. apply prefix_api_not_alnum, H.
  - apply String.eqb_eq in H. subst. right. reflexivity.
Qed.

(** X16. No stored code is hidden by the reserved-path guard of the
    redirect handler, and a stored code passes the format check of the
    redirect and info handlers exactly when the integer it encodes is
    below 62^10: in a store reached from the empty one every record's
    code is the code of some [n >= 1], is not a reserved path, and is
    well formed if and only if [n < 62^10]. *)
Theorem stored_codes_and_guards (h : list (Request * Env)) (r : UrlDoc) :
  In r (urls (run h empty_store)) ->
  exists n,
    1 <= n
    /\ shortCode r = encodeBase62 n
    /\ reserved_path (shortCode r) = false
    /\ (isValidShortCode (shortCode r) = true <-> n < 62 ^ 10).
Proof.
  intros Hin.
  assert (Ha : allocated (run h empty_store)) by (apply run_allocated, empty_store_allocated).
  destruct (allocated_below_next _ r Ha Hin) as (n & Hn & E).
  exists n. rewrite E. repeat split; try lia.
  - destruct (reserved_path (encodeBase62 n)) eqn:Hr; [|reflexivity].
    destruct (reserved_not_code _ Hr) as [He|He].
    + destruct (encode_nonempty n); [lia | exact He].
    + rewrite encode_alnum in He. discriminate.
  - intros Hv. apply encode_well_formed_iff in Hv. lia.
  - intros Hlt. apply encode_well_formed_iff. lia.
Qed.

(** X17. The info and redirect handlers agree on every path that is not
    reserved, when the backend answers the lookup: both answer 400 for the
    same codes, both answer 404 for the same codes, and the info handler
    reports a record exactly when the redirect handler redirects; the
    redirect then goes to the URL the info handler reports, as Express
    writes it into the [Location]. *)
Theorem info_and_redirect_agree (code : string) (env : Env) (d : Db) :
  reserved_path code = false ->
  avail env 0%nat = true ->
  let info := response_of (serve (GetInfo code) env d) in
  let redirect := response_of (serve (GetRedirect code) env d) in
  (option_map statusCode info = Some 400 <-> option_map statusCode redirect = Some 400)
  /\ (option_map statusCode info = Some 404 <-> option_map statusCode redirect = Some 404)
  /\ ((exists u c k t, info = Some (res_json 200 (JsonInfo u c k t)))
      <-> (exists l, option_map body redirect = Some (Location l)))
  /\ forall u c k t,
       info = Some (res_json 200 (JsonInfo u c k t)) ->
       option_map body redirect = Some (Location (encodeUrl u)).
Proof.
  intros Hr H0 info redirect. subst info redirect.
  destruct (isValidShortCode code) eqn:Hv.
  - destruct (find (matches (ByShortCode code)) (urls d)) as [r|] eqn:Hf.
    + rewrite (info_found code env d r Hv H0 Hf), (redirect_found code env d r Hv H0 Hf).
      cbn [response_of fst option_map statusCode body res_json].
      repeat split; try discriminate; eauto.
      intros u c k t E. injection E as <- _ _ _. reflexivity.
    + rewrite (info_missing code env d Hv H0 Hf), (redirect_missing code env d Hv H0 Hf).
      cbn [response_of fst option_map statusCode body res_json].
      repeat split; try discriminate; auto.
      * intros (u & c & k & t & E). discriminate E.
      * intros (l & E). discriminate E.
  - rewrite (info_malformed code env d Hv), (redirect_malformed code env d Hr Hv).
    cbn [response_of fst option_map statusCode body res_json].
    repeat split; try discriminate; auto.
    + intros (u & c & k & t & E). discriminate E.
    + intros (l & E). discriminate E.
Qed.

End Server.

(** ** The properties at concrete inputs *)

Example encode_first_code : encodeBase62 100001 = "q0V".
Proof. reflexivity. Qed.

Example example_history_runs :
  run example_backend scheme_protocol encode_blanks example_history empty_store = example_store.
Proof. reflexivity. Qed.

Lemma short_codes_unique_example :
  nth_error (urls (run example_backend scheme_protocol encode_blanks example_history empty_store)) 0
  = Some example_doc1
  /\ nth_error (urls (run example_backend scheme_protocol encode_blanks example_history empty_store)) 1
     = Some example_doc2
  /\ shortCode example_doc1 <> shortCode example_doc2.
Proof.
  split; [reflexivity | split; [reflexivity|]].
  apply (short_codes_unique example_backend scheme_protocol encode_blanks example_history 0 1);
    [reflexivity | reflexivity | lia].
Defined.

Lemma encode_roundtrip_example :
  (exists code, encodeBase62_double 100001 = Some code
                /\ decodeBase62 code = Some 100001)
  /\ encodeBase62_double 100001 <> encodeBase62_double 100002.
Proof.
  split.
  - apply (proj1 encode_roundtrip_injective). split; [lia | reflexivity].
  - apply (proj2 encode_roundtrip_injective);
      solve [split; [lia | reflexivity] | lia].
Defined.

(** C2, as stated, fails: 62 * 2^49 + 60 is an integer a Number holds (a
    multiple of 4 below 2^55); dividing it by 62 the engine rounds the
    quotient up to the next integer, so the code the source returns
    decodes to an integer 62 higher. *)
Lemma encode_roundtrip_fails_above_safe :
  (62 * 2 ^ 49 + 60) mod 4 = 0
  /\ 2 ^ 53 <= 62 * 2 ^ 49 + 60 < 2 ^ 55
  /\ encodeBase62_double (62 * 2 ^ 49 + 60) = Some "2zR34KlahY"
  /\ decodeBase62 "2zR34KlahY" = Some (62 * 2 ^ 49 + 60 + 62)
  /\ decodeBase62 "2zR34KlahY" <> Some (62 * 2 ^ 49 + 60).
Proof.
  split; [reflexivity|]. split; [split; [discriminate | reflexivity]|].
  split; [vm_compute; reflexivity|]. split; [vm_compute; reflexivity|].
  vm_compute. discriminate.
Qed.

Lemma shorten_twice_example :
  let d0 := run example_backend scheme_protocol encode_blanks [(Startup, up)] empty_store in
  let first :=
    serve example_backend scheme_protocol encode_blanks
      (PostCreate (JsString "https://example.com/a/b/c")) up d0 in
  let second :=
    serve example_backend scheme_protocol encode_blanks
      (PostCreate (JsString "https://example.com/a/b/c")) up (db_of first) in
  exists code,
    response_of first =
      Some (match find (matches (ByOriginalUrl (trim "https://example.com/a/b/c")))
                    (urls d0) with
            | None => res_json 201
                        (JsonShort (short_url example_backend code) code
                           (trim "https://example.com/a/b/c")
                           "Short URL created successfully")
            | Some _ => res_json 200
                          (JsonShort (short_url example_backend code) code
                             (trim "https://example.com/a/b/c") "URL already exists")
            end)
    /\ response_of second =
         Some (res_json 200
                 (JsonShort (short_url example_backend code) code
                    (trim "https://example.com/a/b/c") "URL already exists"))
    /\ db_of second = db_of first.
Proof.
  apply (shorten_twice_same_code example_backend scheme_protocol encode_blanks eq_refl
           [(Startup, up)] "https://example.com/a/b/c" up up); reflexivity.
Defined.

Lemma sequence_allocation_example :
  getNextCounterValue up {| db := {| urls := []; counter := Some 100000 |}; issued := [] |}
  = (Resolved 100001,
     {| db := {| urls := []; counter := Some 100001 |}; issued := [CounterInc] |}).
Proof.
  apply (proj1 (sequence_allocation example_backend scheme_protocol encode_blanks)
           up {| urls := []; counter := Some 100000 |} 100000);
    reflexivity.
Defined.




Lemma malformed_code_example :
  serve example_backend scheme_protocol encode_blanks (GetRedirect "a-b") up example_store
  = (Some (res_json 400 (JsonError "Invalid short code format")), example_store, []).
Proof.
  apply (proj1 (proj2 (malformed_code_rejected example_backend scheme_protocol encode_blanks
                         "a-b" up example_store))); reflexivity.
Defined.

(** C7, as stated, fails: [favicon.ico] fails the format check and is not
    answered with the client error 400 but with 404. *)
Lemma favicon_is_not_rejected_as_malformed :
  isValidShortCode "favicon.ico" = false
  /\ serve example_backend scheme_protocol encode_blanks (GetRedirect "favicon.ico") up example_store
     = (Some (res_json 404 (JsonError "Page not found")), example_store, []).
Proof. split; reflexivity. Qed.

Lemma duplicate_code_example :
  serve example_backend scheme_protocol encode_blanks
    (PostCreate (JsString "https://example.com/new")) up rewound_store
  = (Some (res_json 500 (JsonError "Internal server error. Please try again.")),
     {| urls := [example_doc1]; counter := Some 100001 |},
     [UrlFindOne (ByOriginalUrl "https://example.com/new"); CounterInc;
      UrlInsert "https://example.com/new" "q0V"]).
Proof.
  apply (proj1 (duplicate_code_is_hard_error example_backend scheme_protocol encode_blanks eq_refl)
           "https://example.com/new" up rewound_store);
    solve [reflexivity | vm_compute; discriminate].
Defined.

Lemma redirect_click_example :
  response_of (serve example_backend scheme_protocol encode_blanks (GetRedirect "q0V") up example_store)
  = Some {| statusCode := 302; body := Location "https://example.com/a/b/c" |}
  /\ response_of
       (serve example_backend scheme_protocol encode_blanks (GetRedirect "q0V") first_call_only
          example_store)
     = Some {| statusCode := 302; body := Location "https://example.com/a/b/c" |}
  /\ db_of (serve example_backend scheme_protocol encode_blanks (GetRedirect "q0V") first_call_only
              example_store)
     = example_store.
Proof.
  apply (redirect_ignores_click_outcome example_backend scheme_protocol encode_blanks
           "q0V" up first_call_only example_store example_doc1); reflexivity.
Defined.

Lemma reserved_path_example :
  serve example_backend scheme_protocol encode_blanks (GetRedirect "api/unknown") up example_store
  = (Some (res_json 404 (JsonError "Page not found")), example_store, [])
  /\ isValidShortCode "api/unknown" = false.
Proof.
  apply (reserved_paths_not_found example_backend scheme_protocol encode_blanks
           "api/unknown" up example_store).
  right; left. reflexivity.
Defined.

(** ** Further properties at concrete inputs *)

Lemma encode_canonical_example :
  exists c rest,
    encodeBase62 100001 = String c rest
    /\ c <> "0"%char
    /\ all_alnum (encodeBase62 100001) = true.
Proof. apply (encode_canonical 100001). lia. Defined.

Lemma encode_length_example :
  exists code, encodeBase62_double 100001 = Some code /\ String.length code = 3%nat.
Proof.
  apply (encode_length_exact 100001 2).
  - split; [vm_compute; discriminate | vm_compute; reflexivity].
  - reflexivity.
Defined.

Lemma encode_passes_format_check_example :
  exists code,
    encodeBase62_double 100001 = Some code
    /\ (String.length code <= 9)%nat
    /\ (isValidShortCode code = true <-> 0 <= 100001).
Proof.
  apply (encode_passes_format_check 100001). split; reflexivity.
Defined.

Lemma records_persist_example :
  exists r',
    In r' (urls (run example_backend scheme_protocol encode_blanks
                   [(GetRedirect "q0V", up); (GetInfo "q0V", up)] example_store))
    /\ same_record example_doc1 r'.
Proof.
  apply (records_persist example_backend scheme_protocol encode_blanks
           [(GetRedirect "q0V", up); (GetInfo "q0V", up)] example_store example_doc1).
  left. reflexivity.
Defined.

Lemma stored_urls_example :
  NoDup (map originalUrl
           (urls (run example_backend scheme_protocol encode_blanks example_history empty_store)))
  /\ NoDup (map _id
              (urls (run example_backend scheme_protocol encode_blanks example_history empty_store)))
  /\ forall r,
       In r (urls (run example_backend scheme_protocol encode_blanks example_history empty_store)) ->
       isValidUrl scheme_protocol (originalUrl r) = true
       /\ trim (originalUrl r) = originalUrl r.
Proof.
  exact (stored_urls_valid_and_distinct example_backend scheme_protocol encode_blanks example_history).
Defined.

Lemma info_only_reads_example :
  serve example_backend scheme_protocol encode_blanks (GetInfo "a-b") up example_store
  = (Some (res_json 400 (JsonError "Invalid short code format")), example_store, []).
Proof.
  apply (proj2 (proj2 (info_only_reads example_backend scheme_protocol encode_blanks
                         "a-b" up example_store))).
  reflexivity.
Defined.

Lemma redirect_counts_example :
  total_clicks
    (urls (db_of (serve example_backend scheme_protocol encode_blanks (GetRedirect "q0V") up
                    example_store)))
  = total_clicks (urls example_store) + 1.
Proof.
  exact (proj2 (proj2 (proj2 (proj2
           (redirect_counts_one_click example_backend scheme_protocol encode_blanks
              "q0V" up example_store))))).
Defined.

Lemma clicks_are_counted_example :
  find (matches (ByShortCode "q0V"))
    (urls (run example_backend scheme_protocol encode_blanks
             [(GetRedirect "q0V", up); (GetRedirect "q0V", up); (GetRedirect "q0V", up)]
             (run example_backend scheme_protocol encode_blanks example_history empty_store)))
  = Some (set_clicks example_doc1 3)
  /\ response_of
       (serve example_backend scheme_protocol encode_blanks (GetInfo "q0V") up
          (run example_backend scheme_protocol encode_blanks
             [(GetRedirect "q0V", up); (GetRedirect "q0V", up); (GetRedirect "q0V", up)]
             (run example_backend scheme_protocol encode_blanks example_history empty_store)))
     = Some (res_json 200
               (JsonInfo "https://example.com/a/b/c" "q0V" 3 1700000000000)).
Proof.
  apply (clicks_are_counted example_backend scheme_protocol encode_blanks example_history
           example_doc1 [up; up; up] up).
  - left. reflexivity.
  - reflexivity.
  - repeat constructor.
  - reflexivity.
Defined.

Lemma shorten_then_resolve_example :
  "https://example.com/a/b/c" = trim "  https://example.com/a/b/c  "
  /\ option_map body
       (response_of
          (serve example_backend scheme_protocol encode_blanks (GetRedirect "q0V") up
             (run example_backend scheme_protocol encode_blanks
                [(PostCreate (JsString "https://example.com/x"), up)]
                (db_of (serve example_backend scheme_protocol encode_blanks
                          (PostCreate (JsString "  https://example.com/a/b/c  ")) up
                          (run example_backend scheme_protocol encode_blanks [(Startup, up)]
                             empty_store))))))
     = Some (Location (encode_blanks (trim "  https://example.com/a/b/c  ")))
  /\ exists k created,
       response_of
         (serve example_backend scheme_protocol encode_blanks (GetInfo "q0V") up
            (run example_backend scheme_protocol encode_blanks
               [(PostCreate (JsString "https://example.com/x"), up)]
               (db_of (serve example_backend scheme_protocol encode_blanks
                         (PostCreate (JsString "  https://example.com/a/b/c  ")) up
                         (run example_backend scheme_protocol encode_blanks [(Startup, up)]
                            empty_store)))))
       = Some (res_json 200
                 (JsonInfo (trim "  https://example.com/a/b/c  ") "q0V" k created)).
Proof.
  apply (shorten_then_resolve example_backend scheme_protocol encode_blanks
           [(Startup, up)] [(PostCreate (JsString "https://example.com/x"), up)]
           "  https://example.com/a/b/c  " up up 201
           "http://localhost:5080/q0V" "q0V" "https://example.com/a/b/c"
           "Short URL created successfully"); reflexivity.
Defined.

Lemma same_code_iff_same_url_example :
  "q0V" = "q0V" <-> "https://example.com/a/b/c" = "https://example.com/a/b/c".
Proof.
  apply (same_code_iff_same_url example_backend scheme_protocol encode_blanks
           [(Startup, up)] [(PostCreate (JsString "https://example.com/x"), up)]
           (JsString "  https://example.com/a/b/c  ")
           (JsString "https://example.com/a/b/c") up up 201 200
           "http://localhost:5080/q0V" "q0V" "https://example.com/a/b/c"
           "Short URL created successfully"
           "http://localhost:5080/q0V" "q0V" "https://example.com/a/b/c"
           "URL already exists"); reflexivity.
Defined.

Lemma create_answer_example :
  db_of (serve example_backend scheme_protocol encode_blanks
           (PostCreate (JsString "https://example.com/new")) up example_store)
  = {| urls := urls example_store
               ++ [ {| _id := fresh_id (urls example_store);
                       originalUrl := "https://example.com/new"; shortCode := "q0X";
                       clicks := 0; createdAt := now up |} ];
       counter := Some (next_value example_store) |}.
Proof.
  apply (proj2 (proj2 (proj2
           (create_answer_matches_store example_backend scheme_protocol encode_blanks
              (JsString "https://example.com/new") up example_store)))).
  reflexivity.
Defined.

Lemma startup_offset_example :
  exists v,
    counter (run example_backend scheme_protocol encode_blanks example_history empty_store) = Some v
    /\ 100000
       + Z.of_nat (length (urls (run example_backend scheme_protocol encode_blanks example_history
                                   empty_store))) <= v
    /\ forall r,
         In r (urls (run example_backend scheme_protocol encode_blanks example_history empty_store)) ->
         (exists n, 100000 < n <= v /\ shortCode r = encodeBase62 n)
         /\ (3 <= String.length (shortCode r))%nat.
Proof.
  apply (startup_offset_is_kept example_backend scheme_protocol encode_blanks up
           [ (PostCreate (JsString "  https://example.com/a/b/c  "), up);
             (PostCreate (JsString "https://example.com/x"), up) ]); reflexivity.
Defined.

Lemma rejected_startup_example :
  db_of (serve example_backend scheme_protocol encode_blanks Startup down empty_store) = empty_store
  /\ serve example_backend scheme_protocol encode_blanks
       (PostCreate (JsString "https://example.com/a/b/c")) up
       (db_of (serve example_backend scheme_protocol encode_blanks Startup down empty_store))
     = (Some (res_json 201
                (JsonShort (short_url example_backend "1") "1"
                   (trim "https://example.com/a/b/c")
                   "Short URL created successfully")),
        {| urls := [ {| _id := 1; originalUrl := trim "https://example.com/a/b/c";
                        shortCode := "1"; clicks := 0; createdAt := now up |} ];
           counter := Some 1 |},
        [UrlFindOne (ByOriginalUrl (trim "https://example.com/a/b/c")); CounterInc;
         UrlInsert (trim "https://example.com/a/b/c") "1"])
  /\ db_of (serve example_backend scheme_protocol encode_blanks Startup up
              {| urls := [ {| _id := 1; originalUrl := trim "https://example.com/a/b/c";
                              shortCode := "1"; clicks := 0; createdAt := now up |} ];
                 counter := Some 1 |})
     = {| urls := [ {| _id := 1; originalUrl := trim "https://example.com/a/b/c";
                       shortCode := "1"; clicks := 0; createdAt := now up |} ];
          counter := Some 1 |}.
Proof.
  apply (rejected_startup_loses_offset example_backend scheme_protocol encode_blanks eq_refl
           "https://example.com/a/b/c" down up up); reflexivity.
Defined.

Lemma rejected_insert_example :
  response_of
    (serve example_backend scheme_protocol encode_blanks
       (PostCreate (JsString "https://example.com/new")) insert_rejected
       (run example_backend scheme_protocol encode_blanks example_history empty_store))
  = Some (res_json 500 (JsonError "Internal server error. Please try again."))
  /\ db_of
       (serve example_backend scheme_protocol encode_blanks
          (PostCreate (JsString "https://example.com/new")) insert_rejected
          (run example_backend scheme_protocol encode_blanks example_history empty_store))
     = {| urls := urls (run example_backend scheme_protocol encode_blanks example_history empty_store);
          counter :=
            Some (next_value
                    (run example_backend scheme_protocol encode_blanks example_history empty_store)) |}
  /\ response_of
       (serve example_backend scheme_protocol encode_blanks
          (PostCreate (JsString "https://example.com/new")) up
          (db_of
             (serve example_backend scheme_protocol encode_blanks
                (PostCreate (JsString "https://example.com/new")) insert_rejected
                (run example_backend scheme_protocol encode_blanks example_history empty_store))))
     = Some (res_json 201
               (JsonShort
                  (short_url example_backend
                     (encodeBase62
                        (next_value
                           (run example_backend scheme_protocol encode_blanks example_history
                              empty_store) + 1)))
                  (encodeBase62
                     (next_value
                        (run example_backend scheme_protocol encode_blanks example_history
                           empty_store) + 1))
                  (trim "https://example.com/new")
                  "Short URL created successfully")).
Proof.
  apply (rejected_insert_leaves_gap example_backend scheme_protocol encode_blanks eq_refl
           example_history "https://example.com/new" insert_rejected up); reflexivity.
Defined.

Lemma outage_example :
  db_of (serve example_backend scheme_protocol encode_blanks
           (PostCreate (JsString "https://example.com/new")) down example_store)
  = example_store
  /\ forall resp,
       response_of (serve example_backend scheme_protocol encode_blanks
                      (PostCreate (JsString "https://example.com/new")) down
                      example_store) = Some resp ->
       statusCode resp = 400 \/ statusCode resp = 404 \/ statusCode resp = 500.
Proof.
  apply (outage_changes_nothing example_backend scheme_protocol encode_blanks
           (PostCreate (JsString "https://example.com/new")) down example_store).
  reflexivity.
Defined.

Lemma stored_codes_and_guards_example :
  exists n,
    1 <= n
    /\ shortCode example_doc1 = encodeBase62 n
    /\ reserved_path (shortCode example_doc1) = false
    /\ (isValidShortCode (shortCode example_doc1) = true <-> n < 62 ^ 10).
Proof.
  apply (stored_codes_and_guards example_backend scheme_protocol encode_blanks example_history
           example_doc1).
  left. reflexivity.
Defined.

Lemma info_and_redirect_agree_example :
  option_map body
    (response_of
       (serve example_backend scheme_protocol encode_blanks (GetRedirect "q0V") up
          example_store))
  = Some (Location (encode_blanks "https://example.com/a/b/c")).
Proof.
  apply (proj2 (proj2 (proj2 (info_and_redirect_agree example_backend scheme_protocol
                                encode_blanks "q0V" up example_store eq_refl eq_refl)))
           "https://example.com/a/b/c" "q0V"
           (clicks example_doc1) (createdAt example_doc1)).
  reflexivity.
Defined.
